(** * Scrapii: content analysis and risk scoring engine

    A shallow embedding of the scoring and analysis code of the scraper
    ([index.tsx], [src/utils/security_integrator.ts],
    [src/utils/baseline_scoring.ts]) together with the properties stated
    about it.

    Conventions of the embedding.
    - A JavaScript string is a [string]: a sequence of code units below 128.
      [toLowerCase], [trim] and the character classes of regular
      expressions are the ASCII ones.
    - A JavaScript number that only ever holds a count is a [Z].  The
      points a header earns in [security_integrator.ts] are sums of
      fractions, and are the binary64 doubles of the language ([float]);
      what [Math.round] and [parseInt] return is a [number Z], and the
      clamped total a [number Q]: an exact value, an infinity or [NaN].
      Every other number is a [Q], computed exactly.
    - [undefined] and [null] are [None].
    - A plain object used as a dictionary is a [gmap] on its own keys;
      where the key comes from the caller, [JS.get] also finds the members
      every object literal inherits from [Object.prototype].
    - What the code takes from outside is an argument of its model: the
      outcome of a [fetch], the number [Math.random()] returns, and what
      the parsed page answers to the queries of the detector.
    - A [RegExp] object carries its [lastIndex], and the operations that
      move it return the object they leave behind. *)

From Stdlib Require Import ZArith QArith Qround Qminmax Lqa Lia Floats.
From Stdlib Require Import String Ascii List Bool DecimalString.
From Stdlib Require Import Sorting.Sorted Sorting.Permutation.
From stdpp Require Import gmap strings.

Open Scope string_scope.
Open Scope Z_scope.

#[local] Set Warnings "-inexact-float".

(** ** JavaScript built-ins used by the code *)

(** A number as the code sees it where it need not be finite: an exact
    value, [Infinity], [-Infinity] or [NaN]. *)
Inductive number (A : Type) : Type :=
| Num (a : A)
| PosInfinity
| NegInfinity
| NaN.
Arguments Num {A} a.
Arguments PosInfinity {A}.
Arguments NegInfinity {A}.
Arguments NaN {A}.

Module JS.

Definition code (c : ascii) : N := N_of_ascii c.

Definition inRange (lo hi : N) (c : ascii) : bool :=
  ((lo <=? code c) && (code c <=? hi))%N.

Definition isUpper : ascii -> bool := inRange 65 90.
Definition isLower : ascii -> bool := inRange 97 122.
Definition isDigit : ascii -> bool := inRange 48 57.

(** White space and line terminators: TAB, LF, VT, FF, CR, SP. *)
Definition isSpace (c : ascii) : bool :=
  inRange 9 13 c || (code c =? 32)%N.

Definition lowerChar (c : ascii) : ascii :=
  if isUpper c then ascii_of_N (code c + 32) else c.

(** [s.toLowerCase()] *)
Fixpoint toLowerCase (s : string) : string :=
  match s with
  | EmptyString => EmptyString
  | String c s' => String (lowerChar c) (toLowerCase s')
  end.

(** [s.startsWith(t)] *)
Definition startsWith (s t : string) : bool := String.prefix t s.

(** [s.includes(t)] *)
Fixpoint includes (s t : string) : bool :=
  String.prefix t s ||
  match s with
  | EmptyString => false
  | String _ s' => includes s' t
  end.

(** [s.split(sep)] for a one-character separator. *)
Fixpoint split (sep : ascii) (s : string) : list string :=
  match s with
  | EmptyString => [EmptyString]
  | String c s' =>
      if Ascii.eqb c sep then EmptyString :: split sep s'
      else match split sep s' with
           | h :: t => String c h :: t
           | [] => [String c EmptyString]
           end
  end.

Fixpoint trimStart (s : string) : string :=
  match s with
  | EmptyString => EmptyString
  | String c s' => if isSpace c then trimStart s' else s
  end.

Fixpoint trimEnd (s : string) : string :=
  match s with
  | EmptyString => EmptyString
  | String c s' =>
      let t := trimEnd s' in
      if isSpace c && String.eqb t EmptyString then EmptyString
      else String c t
  end.

(** [s.trim()] *)
Definition trim (s : string) : string := trimEnd (trimStart s).

(** [xs.join(sep)] *)
Fixpoint join (sep : string) (xs : list string) : string :=
  match xs with
  | [] => EmptyString
  | [x] => x
  | x :: rest => x ++ sep ++ join sep rest
  end.

(** [String(n)] for a non-negative integer. *)
Definition natToString (n : nat) : string :=
  NilZero.string_of_uint (Nat.to_uint n).

(** A value used as a condition: the empty string, like [undefined],
    is falsy. *)
Definition truthy (o : option string) : option string :=
  match o with
  | Some EmptyString => None
  | _ => o
  end.

(** [a || b] on possibly-undefined strings. *)
Definition orElse (a b : option string) : option string :=
  match truthy a with
  | Some v => Some v
  | None => b
  end.

Definition digitValue (c : ascii) : Z := Z.of_N (code c) - 48.

Fixpoint parseDigits (acc : Z) (s : string) : Z :=
  match s with
  | EmptyString => acc
  | String c s' =>
      if isDigit c then parseDigits (10 * acc + digitValue c) s' else acc
  end.

(** The double nearest to a non-negative integer, halves going to the
    even significand: integers below [2^53] are doubles; a larger one lies
    between two doubles [q * 2^e] and [(q + 1) * 2^e] with [q] of 53 bits,
    and from [2^1024 - 2^970] on the result is [Infinity]. *)
Definition nearestDouble (z : Z) : number Z :=
  if z <? 2 ^ 53 then Num z
  else
    let e := Z.log2 z - 52 in
    let q := z / 2 ^ e in
    let r := z mod 2 ^ e in
    let half := 2 ^ (e - 1) in
    let q := if (half <? r) || ((r =? half) && Z.odd q) then q + 1 else q in
    if 2 ^ 1024 <=? q * 2 ^ e then PosInfinity else Num (q * 2 ^ e).

(** [parseInt(s)] on a string that starts with a decimal digit, as the code
    passes it (a run of digits), is the double nearest to the value of its
    leading digits; on the empty string it is [NaN]. *)
Definition parseInt (s : string) : number Z :=
  match s with
  | String c _ => if isDigit c then nearestDouble (parseDigits 0 s) else NaN
  | EmptyString => NaN
  end.

(** [Math.round]: the nearest integer, halves going up. *)
Definition round (q : Q) : Z := Qfloor (q + 0.5).

(** [Math.round] of a double, from its sign, significand and exponent. *)
Definition roundDouble (f : float) : number Z :=
  match Prim2SF f with
  | S754_zero _ => Num 0
  | S754_infinity false => PosInfinity
  | S754_infinity true => NegInfinity
  | S754_nan => NaN
  | S754_finite s m e =>
      let magnitude := (inject_Z (Z.pos m) * Qpower 2 e)%Q in
      Num (round (if s then Qopp magnitude else magnitude))
  end.

(** [Math.min] of two doubles. *)
Definition minDouble (a b : float) : float :=
  if PrimFloat.is_nan a || PrimFloat.is_nan b then PrimFloat.nan
  else if PrimFloat.ltb a b then a
  else if PrimFloat.ltb b a then b
  else if PrimFloat.get_sign a then a else b.

(** [a + b], [Math.min(a, b)], [Math.max(a, b)] and [a >= b] on numbers;
    the finite values are added exactly. *)
Definition add (a b : number Q) : number Q :=
  match a, b with
  | NaN, _ | _, NaN => NaN
  | PosInfinity, NegInfinity | NegInfinity, PosInfinity => NaN
  | PosInfinity, _ | _, PosInfinity => PosInfinity
  | NegInfinity, _ | _, NegInfinity => NegInfinity
  | Num x, Num y => Num (x + y)%Q
  end.

Definition min (a b : number Q) : number Q :=
  match a, b with
  | NaN, _ | _, NaN => NaN
  | NegInfinity, _ | _, NegInfinity => NegInfinity
  | PosInfinity, Num y => Num y
  | Num x, PosInfinity => Num x
  | PosInfinity, PosInfinity => PosInfinity
  | Num x, Num y => Num (Qmin x y)
  end.

Definition max (a b : number Q) : number Q :=
  match a, b with
  | NaN, _ | _, NaN => NaN
  | PosInfinity, _ | _, PosInfinity => PosInfinity
  | NegInfinity, Num y => Num y
  | Num x, NegInfinity => Num x
  | NegInfinity, NegInfinity => NegInfinity
  | Num x, Num y => Num (Qmax x y)
  end.

Definition ge (a b : number Q) : bool :=
  match a, b with
  | NaN, _ | _, NaN => false
  | PosInfinity, _ | _, NegInfinity => true
  | NegInfinity, _ | _, PosInfinity => false
  | Num x, Num y => Qle_bool y x
  end.

(** An integer as a number. *)
Definition ofInteger (n : number Z) : number Q :=
  match n with
  | Num z => Num (inject_Z z)
  | PosInfinity => PosInfinity
  | NegInfinity => NegInfinity
  | NaN => NaN
  end.

(** [Math.round] of a number. *)
Definition roundNumber (n : number Q) : number Z :=
  match n with
  | Num q => Num (round q)
  | PosInfinity => PosInfinity
  | NegInfinity => NegInfinity
  | NaN => NaN
  end.

(** The names every object literal answers to without having them as keys:
    the members of [Object.prototype]. *)
Definition objectPrototype : list string :=
  [ "constructor"; "__defineGetter__"; "__defineSetter__"; "hasOwnProperty";
    "__lookupGetter__"; "__lookupSetter__"; "isPrototypeOf";
    "propertyIsEnumerable"; "toString"; "valueOf"; "__proto__";
    "toLocaleString" ].

(** What [o[key]] finds on an object literal: the value of an own key, or
    the function (for [__proto__], the object) inherited under that name. *)
Inductive found (A : Type) : Type :=
| Value (a : A)
| Member (key : string).
Arguments Value {A} a.
Arguments Member {A} key.

(** [o[key]] on an object literal whose own keys are those of [o]. *)
Definition get {A : Type} (o : gmap string A) (key : string)
    : option (found A) :=
  match o !! key with
  | Some a => Some (Value a)
  | None =>
      if existsb (String.eqb key) objectPrototype then Some (Member key)
      else None
  end.

(** [Math.floor] *)
Definition floor (q : Q) : Z := Qfloor q.

End JS.

(** A returned value, a thrown [Error] with its message, or a thrown
    [TypeError] (the language raises it, with a message of the engine). *)
Inductive result (A : Type) : Type :=
| Return (a : A)
| Throw (message : string)
| ThrowTypeError.
Arguments Return {A} a.
Arguments Throw {A} message.
Arguments ThrowTypeError {A}.

(** ** [src/utils/security_integrator.ts] *)

Abbreviation SecurityHeaders := (gmap string string).

Record VulnerabilityData : Type := {
  critical : Z;
  high : Z;
  medium : Z;
  low : Z
}.

Inductive ContextType : Type :=
| CtxStatic | CtxDynamic | CtxEcommerce | CtxEnterprise | CtxGovernment
| CtxApi | CtxSinglePageApp | CtxBlog | CtxPortfolio.

Inductive Audience : Type :=
| AudGeneral | AudBusiness | AudFinancial | AudGovernment | AudEnterprise
| AudDeveloper.

Record SiteContext : Type := {
  ctxType : ContextType;
  hasUserGeneratedContent : bool;
  handlesFinancialData : bool;
  hasLoginSystem : bool;
  allowsFileUploads : bool;
  usesExternalAPIs : bool;
  hasThirdPartyIntegrations : bool;
  isPublicFacing : bool;
  usesHTTPS : bool;
  technologyStack : list string;
  targetAudience : Audience
}.

Record HeadersScore : Type := {
  present : number Z;
  missing : number Z;
  score : number Z
}.

Record VulnerabilityDetails : Type := {
  vdCritical : Z;
  vdHigh : Z;
  vdMedium : Z;
  vdLow : Z;
  vdScore : Z
}.

Record ScoreDetails : Type := {
  baseline : JS.found Z;
  headers : HeadersScore;
  vulnerabilities : VulnerabilityDetails;
  bonus : Z;
  total : number Q
}.

Record SecurityScore : Type := {
  overall : number Z;
  grade : string;
  riskLevel : string;
  details : ScoreDetails
}.

Module RealisticSecurityCalculator.

Definition SITE_BASELINES : gmap string Z :=
  list_to_map
    [ ("ecommerce-standard", 75);
      ("ecommerce-premium", 85);
      ("enterprise-smb", 70);
      ("enterprise-corporate", 80);
      ("portfolio-professional", 65);
      ("saas-platform", 78);
      ("government", 90);
      ("financial", 95);
      ("healthcare", 85);
      ("education", 75);
      ("media-publisher", 70);
      ("blog-influencer", 60);
      ("landing-page-conversion", 65);
      ("DEFAULT", 80) ].

(** [this.SITE_BASELINES.DEFAULT] *)
Definition SITE_BASELINES_DEFAULT : Z :=
  default 0 (SITE_BASELINES !! "DEFAULT").

Inductive Criticality : Type := CRITICAL | HIGH | MEDIUM | LOW.

(** In the order [Object.entries] enumerates them. *)
Definition HEADER_WEIGHTS : list (string * (float * Criticality)) :=
  [ ("content-security-policy", (25%float, CRITICAL));
    ("strict-transport-security", (20%float, CRITICAL));
    ("x-frame-options", (15%float, HIGH));
    ("x-content-type-options", (12%float, HIGH));
    ("referrer-policy", (8%float, MEDIUM));
    ("permissions-policy", (6%float, MEDIUM));
    ("x-xss-protection", (3%float, LOW)) ].

Definition VULNERABILITY_PENALTIES (c : Criticality) : Z :=
  match c with
  | CRITICAL => 25
  | HIGH => 12
  | MEDIUM => 5
  | LOW => 2
  end.

Definition evaluateCSPQuality (cspValue : string) : float :=
  let goodPractices := ["default-src"; "script-src"; "style-src"] in
  let hasNonces :=
    JS.includes cspValue "nonce-" || JS.includes cspValue "sha256-" in
  let hasUnsafeInline := JS.includes cspValue "'unsafe-inline'" in
  let score := 0.5%float in
  let score :=
    fold_left
      (fun acc directive =>
         if JS.includes cspValue directive then (acc + 0.2)%float else acc)
      goodPractices score in
  let score := if negb hasUnsafeInline then (score + 0.3)%float else score in
  let score := if hasNonces then (score + 0.2)%float else score in
  JS.minDouble 1.0%float score.

Definition evaluateHSTSQuality (hstsValue : string) : float :=
  let hasMaxAge := JS.includes hstsValue "max-age=" in
  let hasIncludeSubDomains := JS.includes hstsValue "includeSubDomains" in
  let hasPreload := JS.includes hstsValue "preload" in
  let score := 0.3%float in
  let score := if hasMaxAge then (score + 0.3)%float else score in
  let score := if hasIncludeSubDomains then (score + 0.2)%float else score in
  let score := if hasPreload then (score + 0.2)%float else score in
  JS.minDouble 1.0%float score.

Definition evaluateHeaderQuality (headerName value : string) : float :=
  if String.eqb headerName "content-security-policy" then
    evaluateCSPQuality value
  else if String.eqb headerName "strict-transport-security" then
    evaluateHSTSQuality value
  else if String.eqb headerName "x-frame-options" then
    if JS.includes value "DENY" || JS.includes value "SAMEORIGIN"
    then 1.0%float else 0.7%float
  else
    if String.eqb value EmptyString then 0.0%float else 1.0%float.

Definition contextModifiers_static_site : gmap string float :=
  list_to_map
    [ ("content-security-policy", 0.3%float);
      ("referrer-policy", 0.5%float);
      ("permissions-policy", 0.4%float);
      ("x-xss-protection", 0.1%float) ].

Definition contextModifiers_api_only : gmap string float :=
  list_to_map
    [ ("content-security-policy", 0.0%float);
      ("x-frame-options", 0.0%float);
      ("referrer-policy", 0.2%float) ].

Definition contextModifiers_blog_portfolio : gmap string float :=
  list_to_map
    [ ("content-security-policy", 0.4%float);
      ("x-frame-options", 0.3%float);
      ("referrer-policy", 1.1%float) ].

Definition isApiOrEnterprise (t : ContextType) : bool :=
  match t with CtxApi | CtxEnterprise => true | _ => false end.

Definition isBlogOrPortfolio (t : ContextType) : bool :=
  match t with CtxBlog | CtxPortfolio => true | _ => false end.

(** [{ ...a, ...b }]: the entries of [b] override those of [a]. *)
Definition spread (a b : gmap string float) : gmap string float := b ∪ a.

Definition calculateMissingHeaderPenalty
    (headerName : string) (criticality : Criticality)
    (context : option SiteContext) : float :=
  let penalty := 1.0%float in
  match context with
  | Some ctx =>
      let modifiers := contextModifiers_static_site in
      let modifiers :=
        if isApiOrEnterprise (ctxType ctx)
        then spread modifiers contextModifiers_api_only else modifiers in
      let modifiers :=
        if isBlogOrPortfolio (ctxType ctx)
        then spread modifiers contextModifiers_blog_portfolio
        else modifiers in
      match modifiers !! headerName with
      | Some modifier => (penalty * modifier)%float
      | None => penalty
      end
  | None => penalty
  end.

(** One turn of the loop over [HEADER_WEIGHTS]; the accumulator is
    [(presentPoints, missingPoints)]. *)
Definition headerStep (hdrs : SecurityHeaders) (context : option SiteContext)
    (acc : float * float) (entry : string * (float * Criticality))
    : float * float :=
  let '(presentPoints, missingPoints) := acc in
  let '(headerName, (weight, criticality)) := entry in
  let headerValue :=
    JS.orElse (hdrs !! headerName) (hdrs !! JS.toLowerCase headerName) in
  match JS.truthy headerValue with
  | Some value =>
      let quality := evaluateHeaderQuality headerName value in
      ((presentPoints + weight * quality)%float, missingPoints)
  | None =>
      let penalty :=
        calculateMissingHeaderPenalty headerName criticality context in
      (presentPoints, (missingPoints + weight * penalty)%float)
  end.

Definition evaluateHeadersRealistically
    (hdrs : SecurityHeaders) (context : option SiteContext) : HeadersScore :=
  let '(presentPoints, missingPoints) :=
    fold_left (headerStep hdrs context) HEADER_WEIGHTS (0%float, 0%float) in
  {| present := JS.roundDouble presentPoints;
     missing := JS.roundDouble missingPoints;
     score := JS.roundDouble (presentPoints + missingPoints)%float |}.

Definition evaluateVulnerabilitiesRealistically (vulns : VulnerabilityData)
    : Z :=
  let totalPenalty := 0 in
  let totalPenalty :=
    if 0 <? critical vulns
    then totalPenalty + VULNERABILITY_PENALTIES CRITICAL * Z.min (critical vulns) 3
    else totalPenalty in
  let totalPenalty :=
    if 0 <? high vulns
    then totalPenalty + VULNERABILITY_PENALTIES HIGH * Z.min (high vulns) 5
    else totalPenalty in
  let totalPenalty :=
    if 0 <? medium vulns
    then totalPenalty + VULNERABILITY_PENALTIES MEDIUM * Z.min (medium vulns) 8
    else totalPenalty in
  let totalPenalty :=
    if 0 <? low vulns
    then totalPenalty + VULNERABILITY_PENALTIES LOW * Z.min (low vulns) 10
    else totalPenalty in
  - JS.round (inject_Z (Z.min totalPenalty 30)).

Definition calculateContextualBonus (hdrs : SecurityHeaders)
    (vulns : VulnerabilityData) (context : option SiteContext) : Z :=
  let bonus := 0 in
  let bonus :=
    match hdrs !! "strict-transport-security" with
    | Some v => if JS.includes v "max-age" then bonus + 5 else bonus
    | None => bonus
    end in
  let totalVulns := critical vulns + high vulns + medium vulns + low vulns in
  let bonus :=
    if totalVulns =? 0 then bonus + 3
    else if totalVulns <=? 2 then bonus + 1
    else bonus in
  match context with
  | Some ctx =>
      let bonus :=
        if isBlogOrPortfolio (ctxType ctx) && negb (hasUserGeneratedContent ctx)
        then bonus + 2 else bonus in
      if negb (handlesFinancialData ctx) && negb (hasLoginSystem ctx)
         && negb (allowsFileUploads ctx)
      then bonus + 3 else bonus
  | None => bonus
  end.

Definition calculateGrade (score : number Q) : string :=
  if JS.ge score (Num 95%Q) then "A+"
  else if JS.ge score (Num 90%Q) then "A"
  else if JS.ge score (Num 85%Q) then "A-"
  else if JS.ge score (Num 80%Q) then "B+"
  else if JS.ge score (Num 75%Q) then "B"
  else if JS.ge score (Num 70%Q) then "B-"
  else if JS.ge score (Num 65%Q) then "C+"
  else if JS.ge score (Num 60%Q) then "C"
  else if JS.ge score (Num 55%Q) then "C-"
  else if JS.ge score (Num 50%Q) then "D"
  else "F".

Definition calculateRiskLevel (score : number Q) (vulns : VulnerabilityData)
    : string :=
  let hasCriticalVulns := 0 <? critical vulns in
  let hasHighVulns := 0 <? high vulns in
  if JS.ge score (Num 85%Q) && negb hasCriticalVulns && (high vulns <=? 1)
  then "Bajo"
  else if JS.ge score (Num 70%Q) && negb hasCriticalVulns then "Medio"
  else if JS.ge score (Num 50%Q) || (2 <? high vulns) then "Alto"
  else "Crítico".

(** [SITE_BASELINES[siteType] || SITE_BASELINES.DEFAULT]: a member
    inherited from [Object.prototype] is truthy, and is the baseline. *)
Definition lookupBaseline (siteType : string) : JS.found Z :=
  match JS.get SITE_BASELINES siteType with
  | Some (JS.Value b) =>
      JS.Value (if b =? 0 then SITE_BASELINES_DEFAULT else b)
  | Some (JS.Member key) => JS.Member key
  | None => JS.Value SITE_BASELINES_DEFAULT
  end.

(** [baseline + headersScore.score + vulnScore + bonusScore]: with a
    function or an object for [baseline] the sum is a string that spells no
    number, and [Math.min] makes it [NaN]. *)
Definition sumOfScores (baseline : JS.found Z) (headersScore : number Z)
    (vulnScore bonusScore : Z) : number Q :=
  match baseline with
  | JS.Value b =>
      JS.add
        (JS.add (JS.add (Num (inject_Z b)) (JS.ofInteger headersScore))
           (Num (inject_Z vulnScore)))
        (Num (inject_Z bonusScore))
  | JS.Member _ => NaN
  end.

(** [siteType] is [None] when the caller leaves the parameter out; its
    default value is ['DEFAULT']. *)
Definition calculateRealisticScore (hdrs : SecurityHeaders)
    (vulns : VulnerabilityData) (siteType : option string)
    (context : option SiteContext) : SecurityScore :=
  let siteType := default "DEFAULT" siteType in
  let baseline := lookupBaseline siteType in
  let headersScore := evaluateHeadersRealistically hdrs context in
  let vulnScore := evaluateVulnerabilitiesRealistically vulns in
  let bonusScore := calculateContextualBonus hdrs vulns context in
  let total :=
    JS.max (Num 0%Q) (JS.min (Num 100%Q)
      (sumOfScores baseline (score headersScore) vulnScore bonusScore)) in
  let grade := calculateGrade total in
  let riskLevel := calculateRiskLevel total vulns in
  {| overall := JS.roundNumber total;
     grade := grade;
     riskLevel := riskLevel;
     details :=
       {| baseline := baseline;
          headers := headersScore;
          vulnerabilities :=
            {| vdCritical := critical vulns;
               vdHigh := high vulns;
               vdMedium := medium vulns;
               vdLow := low vulns;
               vdScore := vulnScore |};
          bonus := bonusScore;
          total := total |} |}.

End RealisticSecurityCalculator.

(** A finding of the vulnerability matcher ([VulnerableTechnology] in
    [index.tsx]). *)
Inductive Severity : Type := low_ | medium_ | high_ | critical_.

Record VulnerableTechnology : Type := {
  name : string;
  version : string;
  vulnerability : string;
  severity : Severity;
  lineNumbers : option (list nat);
  recommendation : option string
}.

Module SecurityIntegrationUtils.

Definition isGoogleSafe (vuln : VulnerableTechnology) : bool :=
  JS.includes (JS.toLowerCase (vulnerability vuln)) "google"
  || JS.includes (JS.toLowerCase (vulnerability vuln)) "gtm"
  || JS.includes (JS.toLowerCase (vulnerability vuln)) "tag manager"
  || JS.includes (JS.toLowerCase (vulnerability vuln)) "maps api"
  || JS.includes (JS.toLowerCase (vulnerability vuln)) "analytics"
  || JS.includes (JS.toLowerCase (vulnerability vuln)) "firebase"
  || JS.includes (JS.toLowerCase (vulnerability vuln)) "gapi".

Definition isDevSafe (vuln : VulnerableTechnology) : bool :=
  JS.includes (JS.toLowerCase (vulnerability vuln)) "console.log"
  || JS.includes (JS.toLowerCase (vulnerability vuln)) "debug mode"
  || JS.includes (JS.toLowerCase (vulnerability vuln)) "development".

Definition isSafeInnerHTML (vuln : VulnerableTechnology) : bool :=
  JS.includes (JS.toLowerCase (vulnerability vuln)) "innerhtml"
  && (JS.includes (JS.toLowerCase (vulnerability vuln)) "hardcoded"
      || JS.includes (JS.toLowerCase (vulnerability vuln)) "safe"
      || JS.includes (JS.toLowerCase (vulnerability vuln)) "sanitized").

Definition filterFalsePositives (vulnerabilities : list VulnerableTechnology)
    : list VulnerableTechnology :=
  List.filter
    (fun vuln =>
       negb (isGoogleSafe vuln) && negb (isDevSafe vuln)
       && negb (isSafeInnerHTML vuln))
    vulnerabilities.

Definition countSeverity (normalized : VulnerabilityData)
    (vuln : VulnerableTechnology) : VulnerabilityData :=
  match severity vuln with
  | critical_ =>
      {| critical := critical normalized + 1; high := high normalized;
         medium := medium normalized; low := low normalized |}
  | high_ =>
      {| critical := critical normalized; high := high normalized + 1;
         medium := medium normalized; low := low normalized |}
  | medium_ =>
      {| critical := critical normalized; high := high normalized;
         medium := medium normalized + 1; low := low normalized |}
  | low_ =>
      {| critical := critical normalized; high := high normalized;
         medium := medium normalized; low := low normalized + 1 |}
  end.

Definition normalizeVulnerabilities
    (vulnerabilities : list VulnerableTechnology) : VulnerabilityData :=
  fold_left countSeverity vulnerabilities
    {| critical := 0; high := 0; medium := 0; low := 0 |}.

End SecurityIntegrationUtils.

(** ** [src/utils/baseline_scoring.ts] *)

Inductive Quality : Type := basic | good | excellent.

Inductive IndustryType : Type :=
| retail | finance | government | healthcare | education | technology
| media | manufacturing | services | nonprofit.

Inductive RiskProfile : Type := conservative | moderate | aggressive.

Inductive Level : Type := lvLow | lvMedium | lvHigh.

Record ExpectedHeader : Type := {
  ehName : string;
  ehExpected : bool;
  ehQuality : Quality;
  ehWeight : Z
}.

Record OptimizationTarget : Type := {
  area : string;
  currentScore : Z;
  targetScore : Z;
  effort : Level;
  impact : Level
}.

Record BaselineConfig : Type := {
  type : string;
  description : string;
  baseScore : Z;
  expectedHeaders : list ExpectedHeader;
  typicalVulnerabilities : Z;
  industry : IndustryType;
  riskProfile : RiskProfile;
  optimizationTargets : list OptimizationTarget
}.

Record ScoreGap : Type := {
  gapArea : string;
  gapExpected : Q;
  gapActual : Q;
  gap : Q;
  priority : string
}.

Record IndustryBenchmark : Type := {
  averageScore : Z;
  top10Percent : Z;
  medianScore : Z;
  percentile : Z
}.

Record BaselineRecommendation : Type := {
  category : string;
  action : string;
  expectedImpact : Q;
  difficulty : string;
  timeframe : string
}.

Record SiteAnalysis : Type := {
  siteType : string;
  baselineScore : Z;
  actualScore : Q;
  gaps : list ScoreGap;
  industryComparison : IndustryBenchmark;
  recommendations : list BaselineRecommendation
}.

Module BaselineScorer.

Definition hdr (n : string) (e : bool) (q : Quality) (w : Z)
    : ExpectedHeader :=
  {| ehName := n; ehExpected := e; ehQuality := q; ehWeight := w |}.

Definition target (a : string) (c t : Z) (e i : Level)
    : OptimizationTarget :=
  {| area := a; currentScore := c; targetScore := t; effort := e;
     impact := i |}.

Definition config (t d : string) (b : Z) (hs : list ExpectedHeader)
    (tv : Z) (ind : IndustryType) (rp : RiskProfile)
    (ots : list OptimizationTarget) : string * BaselineConfig :=
  (t, {| type := t; description := d; baseScore := b;
         expectedHeaders := hs; typicalVulnerabilities := tv;
         industry := ind; riskProfile := rp;
         optimizationTargets := ots |}).

Definition BASELINES : gmap string BaselineConfig :=
  list_to_map
    [ config "ecommerce-standard"
        "Tienda online estándar como Alkosto, MercadoLibre" 75
        [ hdr "content-security-policy" true good 25;
          hdr "strict-transport-security" true good 20;
          hdr "x-frame-options" true good 15;
          hdr "x-content-type-options" true good 12;
          hdr "referrer-policy" false basic 8 ]
        1 retail conservative
        [ target "CSP Implementation" 60 85 lvMedium lvHigh;
          target "HTTPS Configuration" 70 95 lvLow lvHigh ];
      config "ecommerce-premium"
        "E-commerce premium como Amazon, tiendas de lujo" 85
        [ hdr "content-security-policy" true excellent 25;
          hdr "strict-transport-security" true excellent 20;
          hdr "x-frame-options" true excellent 15;
          hdr "x-content-type-options" true excellent 12;
          hdr "referrer-policy" true excellent 8 ]
        0 retail conservative
        [ target "Advanced CSP" 80 95 lvHigh lvHigh ];
      config "enterprise-smb" "Sitios empresariales PYME" 70
        [ hdr "content-security-policy" true basic 25;
          hdr "strict-transport-security" true good 20;
          hdr "x-frame-options" true basic 15;
          hdr "x-content-type-options" true good 12 ]
        2 services moderate
        [ target "Basic Security Headers" 50 75 lvLow lvHigh ];
      config "enterprise-corporate" "Sitios corporativos grandes" 80
        [ hdr "content-security-policy" true good 25;
          hdr "strict-transport-security" true excellent 20;
          hdr "x-frame-options" true good 15;
          hdr "x-content-type-options" true good 12;
          hdr "referrer-policy" true good 8 ]
        1 services conservative
        [ target "Corporate Security" 70 90 lvMedium lvHigh ];
      config "portfolio-professional"
        "Portfolios y sitios personales profesionales" 65
        [ hdr "content-security-policy" true basic 20;
          hdr "strict-transport-security" true good 15;
          hdr "x-frame-options" false basic 8;
          hdr "x-content-type-options" true good 10 ]
        1 services moderate
        [ target "Basic Protection" 45 70 lvLow lvMedium ];
      config "saas-platform" "Plataformas SaaS" 78
        [ hdr "content-security-policy" true good 25;
          hdr "strict-transport-security" true good 20;
          hdr "x-frame-options" true good 15;
          hdr "x-content-type-options" true good 12;
          hdr "referrer-policy" true good 8 ]
        1 technology conservative
        [ target "SaaS Security" 65 85 lvMedium lvHigh ];
      config "government" "Sitios gubernamentales" 90
        [ hdr "content-security-policy" true excellent 25;
          hdr "strict-transport-security" true excellent 20;
          hdr "x-frame-options" true excellent 15;
          hdr "x-content-type-options" true excellent 12;
          hdr "referrer-policy" true excellent 8 ]
        0 government conservative
        [ target "Government Standards" 85 95 lvMedium lvHigh ];
      config "financial" "Instituciones financieras" 95
        [ hdr "content-security-policy" true excellent 25;
          hdr "strict-transport-security" true excellent 20;
          hdr "x-frame-options" true excellent 15;
          hdr "x-content-type-options" true excellent 12;
          hdr "referrer-policy" true excellent 8 ]
        0 finance conservative
        [ target "Financial Grade Security" 90 98 lvHigh lvHigh ];
      config "healthcare" "Sitios de salud y medicina" 85
        [ hdr "content-security-policy" true excellent 25;
          hdr "strict-transport-security" true excellent 20;
          hdr "x-frame-options" true good 15;
          hdr "x-content-type-options" true good 12 ]
        1 healthcare conservative
        [ target "HIPAA Compliance" 75 90 lvMedium lvHigh ];
      config "education" "Sitios educativos y universidades" 75
        [ hdr "content-security-policy" true good 25;
          hdr "strict-transport-security" true good 20;
          hdr "x-frame-options" true good 15;
          hdr "x-content-type-options" true good 12 ]
        1 education moderate
        [ target "Educational Security" 65 80 lvMedium lvMedium ];
      config "media-publisher" "Medios de comunicación y publishers" 70
        [ hdr "content-security-policy" true basic 20;
          hdr "strict-transport-security" true good 15;
          hdr "x-frame-options" false basic 10;
          hdr "x-content-type-options" true good 12 ]
        2 media moderate
        [ target "Content Protection" 55 75 lvLow lvMedium ];
      config "blog-influencer" "Blogs personales e influencers" 60
        [ hdr "content-security-policy" true basic 15;
          hdr "strict-transport-security" true good 12;
          hdr "x-frame-options" false basic 5;
          hdr "x-content-type-options" true good 8 ]
        1 media moderate
        [ target "Basic Blog Security" 45 65 lvLow lvLow ];
      config "landing-page-conversion"
        "Landing pages de conversión y marketing" 65
        [ hdr "content-security-policy" true basic 18;
          hdr "strict-transport-security" true good 15;
          hdr "x-frame-options" true good 12;
          hdr "x-content-type-options" true good 10 ]
        1 services moderate
        [ target "Landing Page Security" 50 70 lvLow lvMedium ] ].

(** [INDUSTRY_BENCHMARKS]: average, top 10 percent, median. *)
Definition INDUSTRY_BENCHMARKS (i : IndustryType) : Z * Z * Z :=
  match i with
  | retail => (72, 88, 70)
  | finance => (85, 96, 83)
  | government => (78, 92, 76)
  | healthcare => (74, 89, 72)
  | education => (68, 84, 66)
  | technology => (76, 90, 74)
  | media => (65, 82, 63)
  | manufacturing => (69, 85, 67)
  | services => (71, 87, 69)
  | nonprofit => (62, 80, 60)
  end.

Definition getQualityMultiplier (quality : Quality) : Q :=
  match quality with
  | basic => 0.6%Q
  | good => 0.8%Q
  | excellent => 1.0%Q
  end.

Definition calculateHeaderScore (actualHeaders : gmap string string)
    (expectedHeaders : list ExpectedHeader) : Q :=
  fold_left
    (fun score expected =>
       match JS.truthy (actualHeaders !! JS.toLowerCase (ehName expected)) with
       | Some _ =>
           let qualityMultiplier := getQualityMultiplier (ehQuality expected) in
           (score + inject_Z (ehWeight expected) * qualityMultiplier)%Q
       | None =>
           if ehExpected expected
           then (score - inject_Z (ehWeight expected) * 0.5)%Q
           else score
       end)
    expectedHeaders 0%Q.

Definition calculateVulnerabilityPenalty (actualVulns : VulnerabilityData)
    (typicalCount : Z) : Z :=
  let totalVulns :=
    critical actualVulns + high actualVulns + medium actualVulns
    + low actualVulns in
  let extraVulns := Z.max 0 (totalVulns - typicalCount) in
  if extraVulns =? 0 then 0
  else
    let penalty := 0 in
    let penalty :=
      if 0 <? critical actualVulns
      then penalty - 15 * critical actualVulns else penalty in
    let penalty :=
      if 0 <? high actualVulns
      then penalty - 8 * high actualVulns else penalty in
    let penalty :=
      if 0 <? medium actualVulns
      then penalty - 3 * medium actualVulns else penalty in
    let penalty :=
      if 0 <? low actualVulns
      then penalty - 1 * low actualVulns else penalty in
    Z.min penalty (-20).

Definition evaluateCSPQualityScore (cspValue : string) : Z :=
  let score := 10 in
  let score := if JS.includes cspValue "default-src" then score + 5 else score in
  let score := if JS.includes cspValue "script-src" then score + 5 else score in
  let score := if JS.includes cspValue "style-src" then score + 3 else score in
  let score :=
    if negb (JS.includes cspValue "'unsafe-inline'") then score + 4 else score in
  let score :=
    if JS.includes cspValue "nonce-" || JS.includes cspValue "sha256-"
    then score + 3 else score in
  Z.min 25 score.

Definition evaluateHSTSQualityScore (hstsValue : string) : Z :=
  let score := 10 in
  let score := if JS.includes hstsValue "max-age=" then score + 5 else score in
  let score :=
    if JS.includes hstsValue "includeSubDomains" then score + 3 else score in
  let score := if JS.includes hstsValue "preload" then score + 2 else score in
  Z.min 20 score.

Definition calculateActualQualityScore (headerName value : string) : Z :=
  let n := JS.toLowerCase headerName in
  if String.eqb n "content-security-policy" then evaluateCSPQualityScore value
  else if String.eqb n "strict-transport-security" then
    evaluateHSTSQualityScore value
  else if String.eqb n "x-frame-options" then
    if JS.includes value "DENY" || JS.includes value "SAMEORIGIN"
    then 15 else 8
  else if String.eqb n "x-content-type-options" then
    if String.eqb (JS.toLowerCase value) "nosniff" then 12 else 6
  else if String.eqb n "referrer-policy" then 8
  else 5.

Definition Qgt_bool (a b : Q) : bool := negb (Qle_bool a b).

(** [gaps.sort((a, b) => b.gap - a.gap)]: descending by gap, entries
    with equal gaps keeping their order. *)
Fixpoint insertGap (g : ScoreGap) (sorted : list ScoreGap) : list ScoreGap :=
  match sorted with
  | [] => [g]
  | h :: t =>
      if Qle_bool (gap h) (gap g) then g :: h :: t
      else h :: insertGap g t
  end.

Definition sortGaps (l : list ScoreGap) : list ScoreGap :=
  fold_right insertGap [] l.

Definition gapOf (actualHeaders : gmap string string)
    (expected : ExpectedHeader) : list ScoreGap :=
  match JS.truthy (actualHeaders !! JS.toLowerCase (ehName expected)) with
  | None =>
      if ehExpected expected then
        [ {| gapArea := ehName expected;
             gapExpected := inject_Z (ehWeight expected);
             gapActual := 0%Q;
             gap := inject_Z (ehWeight expected);
             priority :=
               if 20 <=? ehWeight expected then "critical"
               else if 15 <=? ehWeight expected then "high"
               else "medium" |} ]
      else []
  | Some actualValue =>
      let actualQualityScore :=
        inject_Z (calculateActualQualityScore (ehName expected) actualValue) in
      let expectedQualityScore :=
        (inject_Z (ehWeight expected)
         * getQualityMultiplier (ehQuality expected))%Q in
      let gap := (expectedQualityScore - actualQualityScore)%Q in
      if Qgt_bool gap 5 then
        [ {| gapArea := ehName expected;
             gapExpected := expectedQualityScore;
             gapActual := actualQualityScore;
             gap := gap;
             priority := if Qle_bool 15 gap then "high" else "medium" |} ]
      else []
  end.

Definition identifyGaps (actualHeaders : gmap string string)
    (expectedHeaders : list ExpectedHeader) : list ScoreGap :=
  sortGaps (flat_map (gapOf actualHeaders) expectedHeaders).

Definition getIndustryBenchmark (industry : IndustryType)
    : IndustryBenchmark :=
  let '(average, top10, median) := INDUSTRY_BENCHMARKS industry in
  {| averageScore := average; top10Percent := top10;
     medianScore := median; percentile := 50 |}.

Definition generateRecommendations (gaps : list ScoreGap)
    (baseline : BaselineConfig) : list BaselineRecommendation :=
  let criticalGaps :=
    List.filter (fun g => String.eqb (priority g) "critical") gaps in
  let highGaps :=
    List.filter (fun g => String.eqb (priority g) "high") gaps in
  map (fun g =>
         {| category := "Security Headers";
            action := "Implementar " ++ gapArea g;
            expectedImpact := gap g;
            difficulty := "easy";
            timeframe := "1-2 días" |}) criticalGaps
  ++ map (fun g =>
         {| category := "Security Headers";
            action := "Mejorar " ++ gapArea g;
            expectedImpact := (gap g * 0.7)%Q;
            difficulty := "medium";
            timeframe := "3-5 días" |}) (firstn 3 highGaps).

Definition analyzeSite (siteType : string)
    (actualHeaders : gmap string string)
    (actualVulnerabilities : VulnerabilityData) : result SiteAnalysis :=
  match JS.get BASELINES siteType with
  | None => Throw ("Tipo de sitio no reconocido: " ++ siteType)
  | Some (JS.Member _) =>
      (* [baseline.expectedHeaders] is [undefined], and the loop of
         [calculateHeaderScore] over it raises. *)
      ThrowTypeError
  | Some (JS.Value baseline) =>
      let headerScore :=
        calculateHeaderScore actualHeaders (expectedHeaders baseline) in
      let vulnPenalty :=
        calculateVulnerabilityPenalty actualVulnerabilities
          (typicalVulnerabilities baseline) in
      let actualScore :=
        Qmax 0 (Qmin 100
          (inject_Z (baseScore baseline) + headerScore
           + inject_Z vulnPenalty)) in
      let gaps := identifyGaps actualHeaders (expectedHeaders baseline) in
      let industryBenchmark := getIndustryBenchmark (industry baseline) in
      let recommendations := generateRecommendations gaps baseline in
      Return
        {| siteType := siteType;
           baselineScore := baseScore baseline;
           actualScore := actualScore;
           gaps := gaps;
           industryComparison := industryBenchmark;
           recommendations := recommendations |}
  end.

End BaselineScorer.

(** ** Regular expressions

    The patterns of [index.tsx] are built from literal characters,
    character sets, sequence, alternation, optional parts, one capturing
    group, the anchors [^] and [$], and the greedy iteration of a character
    set; [regex] has exactly these.  The matcher is the backtracking one of
    the language: alternatives are tried left to right, iteration takes as
    much as it can and gives back, and the first way to reach the end of
    the pattern is the match. *)

Module RegExp.

Definition charset : Type := ascii -> bool.

Inductive regex : Type :=
| Empty
| Char (cs : charset)
| Seq (r1 r2 : regex)
| Alt (r1 r2 : regex)
| Star (cs : charset)
| Group (r : regex)
| Bol
| Eol.

(** *** Character sets *)

Definition only (c : ascii) : charset := fun x => Ascii.eqb x c.
(** A literal character under the [i] flag. *)
Definition onlyCI (c : ascii) : charset :=
  fun x => Ascii.eqb (JS.lowerChar x) (JS.lowerChar c).
Definition oneOf (s : string) : charset :=
  fun x => existsb (Ascii.eqb x) (list_ascii_of_string s).
Definition noneOf (s : string) : charset := fun x => negb (oneOf s x).
Definition union (a b : charset) : charset := fun x => a x || b x.
(** [\d], [\s] and the double quote. *)
Definition digit : charset := JS.isDigit.
Definition space : charset := JS.isSpace.
Definition dquote : ascii := ascii_of_N 34.
Definition newline : ascii := ascii_of_N 10.

(** *** Derived forms *)

Fixpoint seqs (rs : list regex) : regex :=
  match rs with
  | [] => Empty
  | [r] => r
  | r :: rest => Seq r (seqs rest)
  end.

Fixpoint alts (rs : list regex) : regex :=
  match rs with
  | [] => Empty
  | [r] => r
  | r :: rest => Alt r (alts rest)
  end.

(** A literal string, and the same under the [i] flag. *)
Fixpoint lit (s : string) : regex :=
  match s with
  | EmptyString => Empty
  | String c EmptyString => Char (only c)
  | String c s' => Seq (Char (only c)) (lit s')
  end.

Fixpoint litCI (s : string) : regex :=
  match s with
  | EmptyString => Empty
  | String c EmptyString => Char (onlyCI c)
  | String c s' => Seq (Char (onlyCI c)) (litCI s')
  end.

(** [cs+] and [r?] *)
Definition plus (cs : charset) : regex := Seq (Char cs) (Star cs).
Definition opt (r : regex) : regex := Alt r Empty.

(** *** The matcher *)

(** [cs*] from [s] at position [pos], then [k]: the longest run first,
    then shorter ones. *)
Fixpoint star {A : Type} (cs : charset) (s : string) (pos : nat)
    (k : string -> nat -> option A) : option A :=
  match s with
  | String c s' =>
      if cs c then
        match star cs s' (S pos) k with
        | Some x => Some x
        | None => k s pos
        end
      else k s pos
  | EmptyString => k s pos
  end.

(** [run r s pos cap k] matches [r] at the front of [s], which starts at
    index [pos] of the input; [cap] is the text of the capturing group so
    far; [k] continues with what is left. *)
Fixpoint run {A : Type} (r : regex) (s : string) (pos : nat)
    (cap : option string)
    (k : string -> nat -> option string -> option A) : option A :=
  match r with
  | Empty => k s pos cap
  | Char cs =>
      match s with
      | String c s' => if cs c then k s' (S pos) cap else None
      | EmptyString => None
      end
  | Seq r1 r2 =>
      run r1 s pos cap (fun s1 p1 c1 => run r2 s1 p1 c1 k)
  | Alt r1 r2 =>
      match run r1 s pos cap k with
      | Some x => Some x
      | None => run r2 s pos cap k
      end
  | Star cs => star cs s pos (fun s' p' => k s' p' cap)
  | Group r1 =>
      run r1 s pos cap
        (fun s1 p1 _ => k s1 p1 (Some (String.substring 0 (p1 - pos) s)))
  | Bol => if Nat.eqb pos 0 then k s pos cap else None
  | Eol =>
      match s with
      | EmptyString => k s pos cap
      | String _ _ => None
      end
  end.

(** A successful match: [m.index], [m[0]], [m[1]] and the index after. *)
Record MatchResult : Type := {
  mIndex : nat;
  mText : string;
  mGroup1 : option string;
  mEnd : nat
}.

(** The match of [r] that starts exactly at the front of [s]. *)
Definition matchAt (r : regex) (s : string) (pos : nat)
    : option MatchResult :=
  run r s pos None
    (fun _ p cap =>
       Some {| mIndex := pos;
               mText := String.substring 0 (p - pos) s;
               mGroup1 := cap;
               mEnd := p |}).

(** The leftmost match in [s]. *)
Fixpoint search (r : regex) (s : string) (pos : nat) : option MatchResult :=
  match matchAt r s pos with
  | Some m => Some m
  | None =>
      match s with
      | String _ s' => search r s' (S pos)
      | EmptyString => None
      end
  end.

(** All successive matches, each search resuming where the previous match
    ended (one further after an empty match); [skip] counts the
    characters still to pass before the next attempt. *)
Fixpoint searchAll (r : regex) (s : string) (pos skip : nat)
    : list MatchResult :=
  match skip with
  | S n =>
      match s with
      | String _ s' => searchAll r s' (S pos) n
      | EmptyString => []
      end
  | O =>
      match matchAt r s pos with
      | Some m =>
          m :: match s with
               | String _ s' =>
                   searchAll r s' (S pos) (Nat.pred (mEnd m - mIndex m))
               | EmptyString => []
               end
      | None =>
          match s with
          | String _ s' => searchAll r s' (S pos) 0
          | EmptyString => []
          end
      end
  end.

Fixpoint drop (n : nat) (s : string) : string :=
  match n, s with
  | S n', String _ s' => drop n' s'
  | _, _ => s
  end.

(** *** [RegExp] objects *)

(** A regular expression object: its pattern, the [g] flag, and the
    mutable [lastIndex].  The [i] flag is part of [source]. *)
Record RegExp : Type := {
  source : regex;
  global : bool;
  lastIndex : nat
}.

Definition regexp (r : regex) (g : bool) : RegExp :=
  {| source := r; global := g; lastIndex := 0 |}.

Definition setLastIndex (re : RegExp) (i : nat) : RegExp :=
  {| source := source re; global := global re; lastIndex := i |}.

(** [re.exec(s)]: with [g] the search starts at [lastIndex], which is
    moved past the match, or back to 0 when there is none. *)
Definition exec (re : RegExp) (s : string) : option MatchResult * RegExp :=
  if global re then
    if Nat.ltb (String.length s) (lastIndex re) then (None, setLastIndex re 0)
    else
      match search (source re) (drop (lastIndex re) s) (lastIndex re) with
      | Some m => (Some m, setLastIndex re (mEnd m))
      | None => (None, setLastIndex re 0)
      end
  else (search (source re) s 0, re).

(** [re.test(s)] *)
Definition test (re : RegExp) (s : string) : bool * RegExp :=
  let '(m, re') := exec re s in
  (match m with Some _ => true | None => false end, re').

(** [s.match(re)]: without [g] the first match; with [g] the texts of
    all matches, [null] when there is none, and [lastIndex] left at 0. *)
Definition matchFirst (s : string) (re : RegExp) : option MatchResult :=
  search (source re) s 0.

Definition matchGlobal (s : string) (re : RegExp)
    : option (list string) * RegExp :=
  match searchAll (source re) s 0 0 with
  | [] => (None, setLastIndex re 0)
  | ms => (Some (map mText ms), setLastIndex re 0)
  end.

(** [s.match(re)?.[0]] for either kind of pattern. *)
Definition match0 (s : string) (re : RegExp) : option string :=
  if global re then
    match fst (matchGlobal s re) with
    | Some (m :: _) => Some m
    | _ => None
    end
  else option_map mText (matchFirst s re).

(** [Array.from(s.matchAll(re))]; the iteration works on a copy of
    [re]. *)
Definition matchAll (s : string) (re : RegExp) : list MatchResult :=
  searchAll (source re) (drop (lastIndex re) s) (lastIndex re) 0.

(** [s.replace(/[^a-z]/g, '')] *)
Fixpoint removeAll (cs : charset) (s : string) : string :=
  match s with
  | EmptyString => EmptyString
  | String c s' =>
      if cs c then removeAll cs s' else String c (removeAll cs s')
  end.

End RegExp.

(** ** [index.tsx]: policy gate, header and SSL analysis, matchers *)

(** What [fetch] resolves to.  [headers] is keyed by lower-case header
    name, as a [Headers] object is. *)
Record Response : Type := {
  ok : bool;
  status : Z;
  responseHeaders : gmap string string;
  text : string
}.

Record Technology : Type := {
  techName : string;
  techVersion : option string;
  currentVersion : option string
}.

Record HeaderDetail : Type := {
  hdPresent : bool;
  hdValid : bool;
  hdContent : string
}.

Record HstsDetail : Type := {
  hstsPresent : bool;
  hstsValidity : bool;
  hstsContent : string;
  maxAge : number Z
}.

Record InfoDisclosure : Type := {
  serverExposed : bool;
  poweredByExposed : bool
}.

Record DetailedHeaders : Type := {
  dCsp : HeaderDetail;
  dHsts : HstsDetail;
  dXssProtection : HeaderDetail;
  dReferrerPolicy : HeaderDetail;
  dFrameOptions : HeaderDetail;
  infoDisclosure : InfoDisclosure
}.

Record SecurityHeadersReport : Type := {
  csp : bool;
  hsts : bool;
  xss : bool;
  contentType : bool;
  detailed : DetailedHeaders
}.

Record CertificateValidity : Type := {
  daysRemaining : Z
}.

Record SSLAdditionalInfo : Type := {
  certificateIssuer : string;
  protocolVersion : string;
  cipherSuite : string;
  mixedContent : bool;
  certificateValidity : CertificateValidity
}.

Record SSLAnalysis : Type := {
  hasSSL : bool;
  validCertificate : bool;
  tlsVersion : string;
  httpsEnabled : bool;
  additionalInfo : option SSLAdditionalInfo
}.

Module Scraper.

Import RegExp.

(** *** Ethical scraping: [robots.txt] *)

(** The loop of [extractUserAgentSection] over the remaining lines;
    leaving the loop with [break] returns the section gathered so far. *)
Fixpoint sectionLoop (userAgent : string) (lines : list string)
    (inTargetSection : bool) (sectionContent : string) : string :=
  match lines with
  | [] => sectionContent
  | line :: rest =>
      let lowerLine := JS.trim (JS.toLowerCase line) in
      if JS.startsWith lowerLine "user-agent:" then
        if JS.includes lowerLine (JS.toLowerCase userAgent)
           || JS.includes lowerLine "*"
        then sectionLoop userAgent rest true (line ++ String newline "")
        else if inTargetSection then sectionContent
        else sectionLoop userAgent rest inTargetSection sectionContent
      else if inTargetSection then
        let sectionContent := sectionContent ++ line ++ String newline "" in
        if JS.startsWith lowerLine "user-agent:" then sectionContent
        else sectionLoop userAgent rest inTargetSection sectionContent
      else sectionLoop userAgent rest inTargetSection sectionContent
  end.

Definition extractUserAgentSection (robotsText userAgent : string)
    : option string :=
  let lines := JS.split newline robotsText in
  JS.truthy (Some (JS.trim (sectionLoop userAgent lines false ""))).

(** [fetched] is what fetching [/robots.txt] came to: a response, or the
    exception that building the URL, the request or reading the body
    raised. *)
Definition validateRobotsTxt (fetched : result Response) : bool :=
  match fetched with
  | Throw _ | ThrowTypeError => true
  | Return response =>
      if negb (ok response) then true
      else
        let robotsText := text response in
        let userAgent := "ScrapiiBot/2.0" in
        let lowerText := JS.toLowerCase robotsText in
        let hasGeneralDisallow := JS.includes lowerText "disallow: /" in
        let hasSpecificUserAgent :=
          JS.includes lowerText ("user-agent: " ++ JS.toLowerCase userAgent) in
        match
          (if hasSpecificUserAgent
           then extractUserAgentSection robotsText userAgent else None)
        with
        | Some userAgentSection =>
            negb (JS.includes userAgentSection "disallow: /")
        | None =>
            let hasWildcardUserAgent :=
              JS.includes lowerText "user-agent: *" in
            if hasWildcardUserAgent && hasGeneralDisallow then false
            else true
        end
  end.

(** *** Security headers *)

(** [/max-age=(\d+)/] *)
Definition maxAgePattern : RegExp :=
  regexp (seqs [lit "max-age="; Group (plus digit)]) false.

(** [parseInt(hsts.match(/max-age=(\d+)/)?.[1] || '0')] *)
Definition parsedMaxAge (hsts : string) : number Z :=
  let group1 :=
    match matchFirst hsts maxAgePattern with
    | Some m => mGroup1 m
    | None => None
    end in
  JS.parseInt (default "0" (JS.truthy group1)).

Definition geNumber (n : number Z) (bound : Z) : bool :=
  JS.ge (JS.ofInteger n) (Num (inject_Z bound)).

Definition testAny (patterns : list regex) (s : string) : bool :=
  existsb (fun r => fst (test (regexp r false) s)) patterns.

Definition isSome {A : Type} (o : option A) : bool :=
  match o with Some _ => true | None => false end.

Definition analyzeSecurityHeaders (headers : gmap string string)
    : SecurityHeadersReport :=
  let csp := headers !! "content-security-policy" in
  let hsts := headers !! "strict-transport-security" in
  let xssProtection := headers !! "x-xss-protection" in
  let contentType := headers !! "x-content-type-options" in
  let referrerPolicy := headers !! "referrer-policy" in
  let permissionsPolicy := headers !! "permissions-policy" in
  let xFrameOptions := headers !! "x-frame-options" in
  let serverHeader := headers !! "server" in
  let poweredBy := headers !! "x-powered-by" in
  let cspValid :=
    match JS.truthy csp with
    | Some v =>
        let cspParts := JS.toLowerCase v in
        JS.includes cspParts "default-src"
        && JS.includes cspParts "script-src"
        && (negb (JS.includes cspParts "unsafe-inline")
            || JS.includes cspParts "nonce-"
            || JS.includes cspParts "sha256-")
    | None => false
    end in
  let hstsValid :=
    match JS.truthy hsts with
    | Some v =>
        JS.includes v "max-age=" && geNumber (parsedMaxAge v) 31536000
    | None => false
    end in
  let xssValid :=
    match JS.truthy xssProtection with
    | Some v => String.eqb (JS.toLowerCase v) "1; mode=block"
    | None =>
        match JS.truthy csp with
        | Some c =>
            JS.includes (JS.toLowerCase c) "object-src"
            && JS.includes (JS.toLowerCase c) "script-src"
        | None => false
        end
    end in
  let contentTypeValid :=
    match contentType with
    | Some v => String.eqb (JS.toLowerCase v) "nosniff"
    | None => false
    end in
  let referrerPolicyValid :=
    match JS.truthy referrerPolicy with
    | Some v =>
        existsb (fun policy => JS.includes (JS.toLowerCase v) policy)
          ["no-referrer"; "strict-origin-when-cross-origin";
           "no-referrer-when-downgrade"]
    | None => false
    end in
  let frameOptionsValid :=
    match JS.truthy xFrameOptions with
    | Some v =>
        existsb (fun option => JS.includes (JS.toLowerCase v) option)
          ["deny"; "sameorigin"; "allow-from"]
    | None => false
    end in
  let serverExposed :=
    match JS.truthy serverHeader with
    | Some v =>
        testAny [litCI "apache"; litCI "nginx"; litCI "iis";
                 litCI "lighttpd"; litCI "tomcat"] v
    | None => false
    end in
  let poweredByExposed :=
    match JS.truthy poweredBy with
    | Some v =>
        testAny [litCI "express"; litCI "php"; litCI "laravel";
                 litCI "django"; litCI "rails"] v
    | None => false
    end in
  let detail (h : option string) (valid : bool) : HeaderDetail :=
    {| hdPresent := isSome (JS.truthy h);
       hdValid := valid;
       hdContent := default "No presente" (JS.truthy h) |} in
  {| csp := cspValid;
     hsts := hstsValid;
     xss := xssValid;
     contentType := contentTypeValid;
     detailed :=
       {| dCsp := detail csp cspValid;
          dHsts :=
            {| hstsPresent := isSome (JS.truthy hsts);
               hstsValidity := hstsValid;
               hstsContent := default "No presente" (JS.truthy hsts);
               maxAge :=
                 match JS.truthy hsts with
                 | Some v => parsedMaxAge v
                 | None => Num 0
                 end |};
          dXssProtection := detail xssProtection xssValid;
          dReferrerPolicy := detail referrerPolicy referrerPolicyValid;
          dFrameOptions := detail xFrameOptions frameOptionsValid;
          infoDisclosure :=
            {| serverExposed := serverExposed;
               poweredByExposed := poweredByExposed |} |} |}.

(** *** SSL *)

Definition headerIncludes (h : option string) (t : string) : bool :=
  match h with
  | Some v => JS.includes v t
  | None => false
  end.

(** [random] is the number the call of [Math.random()] returns, a value
    in the interval from 0 (included) to 1 (excluded); the call is only
    made for an [https] URL. *)
Definition analyzeSSL (url : string) (response : Response) (random : Q)
    : SSLAnalysis :=
  let isHttps := JS.startsWith url "https://" in
  let headers := responseHeaders response in
  let additionalInfo :=
    if isHttps then
      let serverHeader := headers !! "server" in
      let strictTransportSecurity := headers !! "strict-transport-security" in
      let protocolVersion := "TLS 1.2+" in
      let protocolVersion :=
        if headerIncludes serverHeader "Apache/2.4" then "TLS 1.2"
        else protocolVersion in
      let protocolVersion :=
        if headerIncludes serverHeader "nginx/1.16" then "TLS 1.2"
        else protocolVersion in
      Some
        {| certificateIssuer :=
             if headerIncludes serverHeader "Let's Encrypt"
             then "Let's Encrypt" else "Unknown";
           protocolVersion := protocolVersion;
           cipherSuite := "Unknown";
           mixedContent := false;
           certificateValidity :=
             {| daysRemaining := JS.floor (random * 365) + 30 |} |}
    else None in
  {| hasSSL := isHttps;
     validCertificate := isHttps;
     tlsVersion := if isHttps then "TLS 1.2+" else "N/A";
     httpsEnabled := isHttps;
     additionalInfo := additionalInfo |}.

(** *** Vulnerability matcher *)

Record VulnerabilityRule : Type := {
  versions : option (list string);
  patterns : option (list regex);
  ruleVulnerability : string;
  ruleSeverity : Severity;
  cveId : option string
}.

Definition rule (vs : list string) (v : string) (sev : Severity)
    (cve : option string) : VulnerabilityRule :=
  {| versions := Some vs; patterns := None; ruleVulnerability := v;
     ruleSeverity := sev; cveId := cve |}.

Definition vulnerabilityDatabase : gmap string VulnerabilityRule :=
  list_to_map
    [ ("jQuery",
       rule ["1."; "2."; "3.0."; "3.1."; "3.2."; "3.3."; "3.4."]
         "jQuery XSS vulnerabilities and prototype pollution (CVE-2020-11022, CVE-2020-11023)"
         high_ (Some "CVE-2020-11022"));
      ("React",
       rule ["15."; "16."; "17.0."; "17.1."; "17.2."]
         "XSS vulnerability via dangerouslySetInnerHTML and URL parsing (CVE-2019-7580)"
         high_ (Some "CVE-2019-7580"));
      ("WordPress",
       rule ["4."; "5.0."; "5.1."; "5.2."; "5.3."; "5.4."; "5.5."; "5.6.";
             "5.7."; "5.8."]
         "WordPress XSS, SQL Injection, and RCE vulnerabilities (Multiple CVEs)"
         critical_ (Some "CVE-2022-39986"));
      ("PHP",
       rule ["5."; "7.0."; "7.1."; "7.2."; "7.3."; "7.4."]
         "PHP multiple vulnerabilities including RCE and file inclusion (CVE-2023-3247)"
         critical_ (Some "CVE-2023-3247"));
      ("Angular",
       rule ["1."; "2."; "4."; "5."; "6."; "7."; "8."; "9."; "10."; "11.";
             "12."; "13."; "14."]
         "Angular XSS vulnerability in template parsing (CVE-2020-5216)"
         high_ (Some "CVE-2020-5216"));
      ("Vue.js",
       rule ["2.0."; "2.1."; "2.2."; "2.3."; "2.4."; "2.5."; "2.6."; "3.0.";
             "3.1."]
         "XSS vulnerability via v-html directive (CVE-2023-2649)"
         high_ (Some "CVE-2023-2649"));
      ("Bootstrap",
       rule ["3."; "4."; "5.0."; "5.1."]
         "Bootstrap XSS vulnerability in tooltip/popover (CVE-2019-8331)"
         medium_ (Some "CVE-2019-8331"));
      ("jQuery UI",
       rule ["1.10."; "1.11."; "1.12."]
         "jQuery UI XSS vulnerability in removeClass function"
         high_ None);
      ("Moment.js",
       rule ["2.22."; "2.23."; "2.24."; "2.25."; "2.26."]
         "Moment.js path traversal vulnerability (CVE-2022-24729)"
         high_ (Some "CVE-2022-24729"));
      ("Lodash",
       rule ["4.17.0"; "4.17.1"; "4.17.2"; "4.17.3"; "4.17.4"]
         "Lodash prototype pollution vulnerability (CVE-2019-10744)"
         critical_ (Some "CVE-2019-10744"));
      ("Express",
       rule ["4.0."; "4.1."; "4.2."; "4.3."; "4.4."; "4.5."; "4.6."]
         "Express framework XSS and open redirect vulnerabilities"
         medium_ None) ].

(** The finding for one detected technology, if its version is a known
    vulnerable one.  (Under a name inherited from [Object.prototype] the
    lookup finds a function, which has neither [versions] nor
    [patterns]: no finding, as for a name that finds nothing.) *)
Definition versionFinding (tech : Technology) : list VulnerableTechnology :=
  match vulnerabilityDatabase !! techName tech, JS.truthy (techVersion tech) with
  | Some vuln, Some version =>
      let isVulnerable := false in
      let isVulnerable :=
        match versions vuln with
        | Some vs =>
            existsb (fun vulnerableVersion =>
                       JS.startsWith version vulnerableVersion) vs
        | None => isVulnerable
        end in
      let isVulnerable :=
        match patterns vuln with
        | Some ps => if isVulnerable then isVulnerable else testAny ps version
        | None => isVulnerable
        end in
      if isVulnerable then
        [ {| name := techName tech;
             version := version;
             vulnerability := ruleVulnerability vuln;
             severity := ruleSeverity vuln;
             lineNumbers := None;
             recommendation := None |} ]
      else []
  | _, _ => []
  end.

Record CodePattern : Type := {
  pattern : RegExp;
  cpVulnerability : string;
  cpSeverity : Severity;
  exploitation : string;
  cpRecommendation : string
}.

Definition notParen : charset := noneOf ")".
Definition quote : charset := union (only "'") (only dquote).

Definition evalPattern : regex :=
  seqs [litCI "eval"; Star space; lit "("].
Definition documentWritePattern : regex :=
  seqs [litCI "document.write"; Star space; lit "("].
Definition innerHTMLPattern : regex :=
  seqs [litCI "innerHTML"; Star space; lit "="].
Definition htmlCallPattern : regex :=
  seqs [litCI ".html"; Star space; lit "("; Star space; Star notParen;
        alts [litCI "atob"; litCI "base64"; litCI "nombre";
              litCI "variantListHtml"; litCI "userContent";
              litCI "dataInput"; litCI "htmlContent"];
        Star notParen; lit ")"].
Definition jqueryHtmlPattern : regex :=
  seqs [lit "$("; Star notParen; lit ")"; litCI ".html"; Star space;
        lit "("; Star space;
        alts [Seq (Star notParen) (litCI "atob");
              Seq (Star notParen) (litCI "base64");
              Seq (Star notParen) (litCI "nombre");
              Seq (Star notParen) (litCI "variantListHtml")]].
Definition setTimeoutPattern : regex :=
  seqs [litCI "setTimeout"; Star space; lit "("; Star space; Char quote].
Definition locationPattern : regex :=
  seqs [litCI "location"; Star space; lit "="; Star space;
        opt (Char quote); opt (Char quote); Star space; lit "+"].
Definition consolePattern : regex :=
  seqs [litCI "console."; Group (alts [litCI "log"; litCI "error"; litCI "warn"]);
        Star space; lit "("].
Definition debugPattern : regex :=
  seqs [litCI "debug"; Star space; lit "="; Star space; litCI "true"].

Definition codePattern (r : regex) (v : string) (sev : Severity)
    (e rec : string) : CodePattern :=
  {| pattern := regexp r true; cpVulnerability := v; cpSeverity := sev;
     exploitation := e; cpRecommendation := rec |}.

Definition vulnerablePatterns : list CodePattern :=
  [ codePattern evalPattern
      "Use of dangerous eval() function" high_
      "Permite ejecución arbitraria de código JavaScript, facilitando RCE y XSS"
      "Evitar eval(), usar JSON.parse() para datos o funciones predefinidas";
    codePattern documentWritePattern
      "Potential XSS via document.write()" medium_
      "Puede ejecutar código malicioso si se usan datos no sanitizados"
      "Usar textContent o createElement para manipular DOM";
    codePattern innerHTMLPattern
      "Potential XSS via innerHTML assignment" medium_
      "Permite inyección de HTML/JavaScript malicioso en el DOM"
      "Usar textContent, createElement() o bibliotecas de sanitización";
    codePattern htmlCallPattern
      "XSS via .html() with potentially unsafe content" high_
      "Si la variable contiene datos decodificados (base64) o input del usuario, permite inyección de código malicioso"
      "Usar .text() en lugar de .html() para contenido de texto, sanitizar datos antes de usar .html()";
    codePattern jqueryHtmlPattern
      "jQuery XSS via .html() with decoded/base64 content" high_
      "Uso de .html() con datos decodificados de base64 puede ejecutar scripts maliciosos"
      "Validar y sanitizar contenido antes de usar .html(), usar .text() para contenido de texto";
    codePattern setTimeoutPattern
      "Potential XSS via setTimeout with string parameter" medium_
      "Ejecución de código desde parámetros de entrada"
      "Usar funciones en lugar de strings en setTimeout";
    codePattern locationPattern
      "Potential redirect/open redirect attack" medium_
      "Redirección a sitios maliciosos usando datos del usuario"
      "Validar URLs internamente y usar whitelists de dominios";
    codePattern consolePattern
      "Console logging in production code" low_
      "Puede exponer información sensible en navegador del usuario"
      "Remover console logs en producción o usar logging libraries";
    codePattern debugPattern
      "Debug mode enabled in production" medium_
      "Información de depuración expuesta puede ayudar a atacantes"
      "Deshabilitar debug en producción y usar configuración por entorno" ].

(** The [lines.forEach] of the matcher: [pattern.test(line)] on each line
    in turn, with [pattern.lastIndex] put back to 0 after each. *)
Fixpoint scanLines (re : RegExp) (lines : list string) (index : nat)
    (foundLines : list nat) : list nat * RegExp :=
  match lines with
  | [] => (foundLines, re)
  | line :: rest =>
      let '(hit, re) := test re line in
      let foundLines :=
        if hit then (foundLines ++ [(index + 1)%nat])%list else foundLines in
      let re := setLastIndex re 0 in
      scanLines re rest (S index) foundLines
  end.

Definition patternFinding (html : string) (cp : CodePattern)
    : list VulnerableTechnology :=
  let '(matches, re) := matchGlobal html (pattern cp) in
  match matches with
  | Some (_ :: _) =>
      let lines := JS.split newline html in
      let '(foundLines, _) := scanLines re lines 0 [] in
      [ {| name := "JavaScript Code Pattern";
           version :=
             "Líneas: "
             ++ JS.join ", " (map JS.natToString (firstn 3 foundLines))
             ++ (if Nat.ltb 3 (List.length foundLines) then "..." else "");
           vulnerability := cpVulnerability cp ++ " - " ++ exploitation cp;
           severity := cpSeverity cp;
           lineNumbers := Some foundLines;
           recommendation := Some (cpRecommendation cp) |} ]
  | _ => []
  end.

Definition debugConfigurationFinding (html : string)
    : list VulnerableTechnology :=
  if JS.includes html "debug=true" || JS.includes html "debug = true" then
    [ {| name := "Debug Configuration";
         version := "Enabled";
         vulnerability := "Debug mode enabled in production";
         severity := medium_;
         lineNumbers := None;
         recommendation := None |} ]
  else [].

Definition consoleLoggingFinding (html : string)
    : list VulnerableTechnology :=
  if JS.includes html "console.log" || JS.includes html "console.error" then
    [ {| name := "Console Logging";
         version := "Present";
         vulnerability := "Console logging in production code";
         severity := low_;
         lineNumbers := None;
         recommendation := None |} ]
  else [].

(** The findings are pushed in this order: one per vulnerable
    technology, one per code pattern that matches, then the two
    configuration checks. *)
Definition detectVulnerableTechnologies (technologies : list Technology)
    (html : string) : list VulnerableTechnology :=
  (flat_map versionFinding technologies
   ++ flat_map (patternFinding html) vulnerablePatterns
   ++ debugConfigurationFinding html
   ++ consoleLoggingFinding html)%list.

(** *** Technology detector *)

(** The parsed page as the detector observes it: whether a selector
    finds an element, the [src] of every [script] element, the [href] of
    every [link[href]] element, and the [content] attribute of the
    [meta[name=generator]] element when there is one. *)
Record Document : Type := {
  querySelector : string -> bool;
  scripts : list string;
  links : list string;
  metaGeneratorContent : option string
}.

Definition getCurrentVersions : gmap string string :=
  list_to_map
    [ ("React", "18.2.0"); ("Vue.js", "3.3.0"); ("Angular", "17.1.0");
      ("Svelte", "4.2.0"); ("Ember.js", "5.0.0"); ("Backbone.js", "1.4.1");
      ("jQuery", "3.7.1"); ("Bootstrap", "5.3.0");
      ("Tailwind CSS", "3.4.0"); ("Bulma", "0.9.4");
      ("Foundation", "6.8.1"); ("Semantic UI", "2.5.0");
      ("Next.js", "14.1.0"); ("Nuxt.js", "3.8.0"); ("Gatsby", "5.12.0");
      ("Vite", "5.1.0"); ("Webpack", "5.89.0"); ("Rollup", "4.9.0");
      ("WordPress", "6.4.0"); ("Shopify", "2024-01"); ("Drupal", "10.3.0");
      ("Joomla", "5.0.0"); ("Magento", "2.4.7"); ("PHP", "8.3.0");
      ("ASP.NET", "8.0.0"); ("Django", "4.2.7"); ("Flask", "3.0.0");
      ("Ruby on Rails", "7.1.0"); ("Node.js/Express", "21.5.0");
      ("Laravel", "11.0.0"); ("Spring", "3.2.0"); ("FastAPI", "0.109.0");
      ("MongoDB", "7.0.0"); ("Firebase", "10.7.0"); ("Supabase", "2.37.0");
      ("TypeScript", "5.3.0"); ("SASS/SCSS", "1.69.0"); ("LESS", "4.2.0");
      ("PostCSS", "8.4.0"); ("Chart.js", "4.4.0"); ("D3.js", "7.8.0") ].

(** [\d+\.\d+\.\d+] and [\d+\.\d+] *)
Definition ver3 : regex :=
  seqs [plus digit; lit "."; plus digit; lit "."; plus digit].
Definition ver2 : regex := seqs [plus digit; lit "."; plus digit].

(** [/\d+\.\d+\.\d+|\d+\.\d+/] *)
Definition versionNumber : RegExp := regexp (Alt ver3 ver2) false.

Definition dotDash : charset := oneOf ".-".
Definition dashUnderscore : charset := oneOf "-_".
Definition dotDashAt : charset := oneOf ".-@".
Definition dotSlash : charset := oneOf "./".
Definition colonSpace : charset := union (only ":") space.

Definition versionPatterns : gmap string (list RegExp) :=
  list_to_map
    [ ("React",
       [ regexp (seqs [lit "react"; opt (Char dotDash); ver3]) false;
         regexp (seqs [lit "react"; Char dashUnderscore; ver3]) false;
         regexp (seqs [lit "react"; Char dotDash; ver2]) false;
         regexp (seqs [lit "react"; Char dashUnderscore; ver2]) false;
         regexp (seqs [lit "react.version"; opt (Char dotDash); ver3]) false;
         regexp (seqs [lit "react-dom@"; ver3]) false;
         regexp (seqs [lit "react"; Char dotDash; lit "version";
                       Star colonSpace; opt (Char quote); ver3]) false;
         regexp (seqs [lit "react"; Char dotDash; lit "v"; ver3]) true ]);
      ("jQuery",
       [ regexp (seqs [lit "jquery"; opt (Char dotDash); ver3]) false;
         regexp (seqs [lit "jquery"; opt (Char dotDash); ver2]) false;
         regexp (seqs [lit "jquery"; Char dotDash; lit "v"; ver3]) false;
         regexp (seqs [lit "jquery"; Char dotDash; lit "v"; ver2]) false;
         regexp (seqs [lit "jquery"; Char dotDash; lit "version";
                       opt (Char dotDash); ver3]) true ]);
      ("Bootstrap",
       [ regexp (seqs [lit "bootstrap"; opt (Char dotDashAt); ver3]) false;
         regexp (seqs [lit "bootstrap"; opt (Char dotDashAt); ver2]) false;
         regexp (seqs [lit "bootstrap"; Char dotDash; lit "v"; ver3]) false;
         regexp (seqs [lit "bootstrap"; Char dotDash; lit "version";
                       opt (Char dotDash); ver3]) true ]);
      ("Vue.js",
       [ regexp (seqs [lit "vue"; opt (Char dotDashAt); ver3]) false;
         regexp (seqs [lit "vue"; opt (Char dotDashAt); ver2]) false;
         regexp (seqs [lit "vue"; Char dotDash; lit "v"; ver3]) false;
         regexp (seqs [lit "vue"; Char dotDash; lit "version";
                       opt (Char dotDash); ver3]) true ]);
      ("Angular",
       [ regexp (seqs [lit "@angular"; Char dotSlash; lit "core";
                       opt (Char dotDashAt); ver3]) false;
         regexp (seqs [lit "@angular"; Char dotSlash; lit "cli";
                       opt (Char dotDashAt); ver3]) false;
         regexp (seqs [lit "angular"; Char dotDash; opt (lit "v"); ver3]) false;
         regexp (seqs [lit "ng"; Char dotDash; lit "version";
                       Star colonSpace; opt (Char quote); ver3]) true ]);
      ("TypeScript",
       [ regexp (seqs [lit "typescript"; opt (Char dotDashAt); ver3]) false;
         regexp (seqs [lit "typescript"; opt (Char dotDashAt); ver2]) false;
         regexp (seqs [lit "ts"; opt (Char dotDashAt); ver3]) true ]);
      ("Node.js/Express",
       [ regexp (seqs [lit "node"; opt (Char dotDash); ver3]) false;
         regexp (seqs [lit "nodejs"; opt (Char dotDash); ver3]) false;
         regexp (seqs [lit "express"; opt (Char dotDashAt); ver3]) true ]) ].

(** [text.match(/\d+\.\d+\.\d+|\d+\.\d+/)?.[0]], when it is a
    non-empty string. *)
Definition versionIn (text : string) : option string :=
  JS.truthy (option_map mText (matchFirst text versionNumber)).

Fixpoint firstVersion (texts : list string) : option string :=
  match texts with
  | [] => None
  | t :: rest =>
      match JS.truthy (Some t) with
      | Some t' =>
          match versionIn t' with
          | Some v => Some v
          | None => firstVersion rest
          end
      | None => firstVersion rest
      end
  end.

(** The loop over the patterns of one technology. *)
Fixpoint versionFromPatterns (htmlLower : string) (ps : list RegExp)
    : option string :=
  match ps with
  | [] => None
  | pattern :: rest =>
      let first :=
        match JS.truthy (match0 htmlLower pattern) with
        | Some m => versionIn m
        | None => None
        end in
      match first with
      | Some v => Some v
      | None =>
          let again :=
            if global pattern
            then firstVersion (map mText (matchAll htmlLower pattern))
            else None in
          match again with
          | Some v => Some v
          | None => versionFromPatterns htmlLower rest
          end
      end
  end.

Definition notLowerLetter : charset := fun c => negb (JS.isLower c).

(** In the template the class is written with a backslash before the
    dash, which the template literal drops: the class the expression is
    built with is the range from [.] to [@], [_] and white space. *)
Definition genericSeparator : charset :=
  union (JS.inRange 46 64) (union (only "_") space).

Definition genericPattern (cleanTechName : string) : RegExp :=
  regexp
    (seqs [lit cleanTechName; Star genericSeparator; opt (lit "v");
           Group (seqs [plus digit; lit "."; plus digit;
                        opt (seqs [lit "."; plus digit])])])
    true.

(** [/^\d+\.\d+(?:\.\d+)?$/] *)
Definition wholeVersion : RegExp :=
  regexp
    (seqs [Bol; plus digit; lit "."; plus digit;
           opt (seqs [lit "."; plus digit]); Eol])
    false.

Fixpoint firstGenericVersion (ms : list MatchResult) : option string :=
  match ms with
  | [] => None
  | m :: rest =>
      match JS.truthy (mGroup1 m) with
      | Some g =>
          if isSome (matchFirst g wholeVersion) then Some g
          else firstGenericVersion rest
      | None => firstGenericVersion rest
      end
  end.

(** [techName] is the name of one of the detection rules. *)
Definition detectTechnologyVersion (html techName : string)
    : option string :=
  let htmlLower := JS.toLowerCase html in
  if negb (JS.includes htmlLower
             (removeAll notLowerLetter (JS.toLowerCase techName)))
  then None
  else
    match versionPatterns !! techName with
    | Some patterns => versionFromPatterns htmlLower patterns
    | None =>
        let cleanTechName :=
          removeAll notLowerLetter (JS.toLowerCase techName) in
        firstGenericVersion
          (matchAll htmlLower (genericPattern cleanTechName))
    end.

(** [technologies.add(name)] on a [Set], kept in insertion order. *)
Definition setAdd (technologies : list string) (name : string)
    : list string :=
  if existsb (String.eqb name) technologies then technologies
  else (technologies ++ [name])%list.

(** [Array.prototype.sort()] without a comparison function: ascending
    in the order of the code units. *)
Fixpoint sortInsert (x : string) (sorted : list string) : list string :=
  match sorted with
  | [] => [x]
  | h :: t => if String.leb x h then x :: h :: t else h :: sortInsert x t
  end.

Definition sort (l : list string) : list string :=
  fold_right sortInsert [] l.

Definition anyIncludes (values : list string) (t : string) : bool :=
  existsb (fun v => JS.includes v t) values.

(** The detection rules in the order of the source: each adds its
    technology when its condition holds. *)
Definition signatures (html : string) (doc : Document)
    : list (bool * string) :=
  let has := JS.includes html in
  let sel := querySelector doc in
  let src := anyIncludes (scripts doc) in
  let href := anyIncludes (links doc) in
  let metaGenerator := default "" (JS.truthy (metaGeneratorContent doc)) in
  let gen := JS.includes metaGenerator in
  [ (has "react" || sel "[data-reactroot], [data-react]" || src "react", "React");
    (has "vue" || sel "#app[data-v-app]" || src "vue", "Vue.js");
    (has "angular" || has "ng-app" || src "angular", "Angular");
    (has "svelte" || sel "[data-svelte]" || src "svelte", "Svelte");
    (has "ember" || src "ember", "Ember.js");
    (has "backbone" || src "backbone", "Backbone.js");
    (has "jquery", "jQuery");
    (has "bootstrap" || sel ".container-fluid, .container" || href "bootstrap",
     "Bootstrap");
    (has "tailwind" || sel ("[class*=" ++ String dquote "tw-" ++ String dquote "]"),
     "Tailwind CSS");
    (has "bulma" || sel ".is-primary", "Bulma");
    (has "foundation" || sel "[data-sticky]", "Foundation");
    (has "semantic-ui" || sel ".ui.segment", "Semantic UI");
    (sel "#__next" || has "next", "Next.js");
    (has "nuxt" || sel "[data-n-head]", "Nuxt.js");
    (has "gatsby" || sel "[data-gatsby]", "Gatsby");
    (has "vite" || sel "[data-vite-plugin]", "Vite");
    (has "webpack" || src "webpack", "Webpack");
    (has "rollup" || src "rollup", "Rollup");
    (gen "WordPress" || has "wp-content" || has "wordpress", "WordPress");
    (gen "Shopify" || has "shopify", "Shopify");
    (gen "Drupal" || has "drupal", "Drupal");
    (gen "Joomla" || has "joomla", "Joomla");
    (gen "Magento" || has "magento", "Magento");
    (has "docusaurus" || has "dokuwiki", "Docusaurus");
    (has "notion" || has "notion.so", "Notion");
    (has "wix" || has "wixstatic", "Wix");
    (has "squarespace" || has "squarespace.com", "Squarespace");
    (has "php" || has ".php" || gen "php", "PHP");
    (has "asp.net" || has ".aspx" || gen "asp.net", "ASP.NET");
    (has "django" || has "csrfmiddlewaretoken", "Django");
    (has "flask" || has "flask", "Flask");
    (has "rails" || has "ruby on rails" || has "csrf-token", "Ruby on Rails");
    (has "express" || has "node.js" || has "nodejs", "Node.js/Express");
    (has "laravel" || has "laravel", "Laravel");
    (has "spring" || has "spring boot", "Spring");
    (has "fastapi" || has "swagger-ui", "FastAPI");
    (has "mongodb" || src "mongodb", "MongoDB");
    (has "firebase" || has "google-analytics", "Firebase");
    (has "supabase" || has "supabase", "Supabase");
    (has "animate.css" || has "aos" || href "animate", "Animate.css");
    (has "swiper" || has "slick", "Slider/Carousel");
    (has "chart.js" || src "chart", "Chart.js");
    (has "d3" || src "d3", "D3.js");
    (has "google-analytics" || has "gtag", "Google Analytics");
    (has "facebook" || has "fb-", "Facebook Pixel");
    (has "hubspot" || has "hs-", "HubSpot");
    (has "mailchimp" || has "mc-", "Mailchimp");
    (has "stripe" || has "stripe", "Stripe");
    (has "paypal" || has "paypal", "PayPal");
    (has "types" || src "types", "TypeScript");
    (has "sass" || has "scss" || href "sass" || href "scss", "SASS/SCSS");
    (has "less" || href "less", "LESS");
    (has "postcss" || href "postcss", "PostCSS") ].

Definition detectedNames (html : string) (doc : Document) : list string :=
  fold_left
    (fun technologies '(found, name) =>
       if found : bool then setAdd technologies name else technologies)
    (signatures html doc) [].

Definition detectTechnologies (html : string) (doc : Document)
    : list Technology :=
  let technologies := detectedNames html doc in
  let currentVersions := getCurrentVersions in
  map (fun techName =>
         {| techName := techName;
            techVersion := detectTechnologyVersion html techName;
            currentVersion := currentVersions !! techName |})
      (sort technologies).

(** *** The analysis steps of a scan *)

Record Analysis : Type := {
  technologies : list Technology;
  securityHeaders : SecurityHeadersReport;
  sslAnalysis : SSLAnalysis;
  vulnerableTechnologies : list VulnerableTechnology
}.

(** Steps 4 and 5 of a scan, on the page that was fetched; [random] is
    what [Math.random()] returns during the scan. *)
Definition analyze (random : Q) (url html : string) (doc : Document)
    (response : Response) : Analysis :=
  let technologies := detectTechnologies html doc in
  let headers := responseHeaders response in
  let securityHeaders := analyzeSecurityHeaders headers in
  let sslAnalysis := analyzeSSL url response random in
  let vulnerableTechnologies :=
    detectVulnerableTechnologies technologies html in
  {| technologies := technologies;
     securityHeaders := securityHeaders;
     sslAnalysis := sslAnalysis;
     vulnerableTechnologies := vulnerableTechnologies |}.

End Scraper.

Import RegExp Scraper RealisticSecurityCalculator SecurityIntegrationUtils.

(** * Vocabulary of the properties *)

(** ** Scoring *)

(** Counts of findings are never negative. *)
Definition validCounts (v : VulnerabilityData) : Prop :=
  0 <= critical v /\ 0 <= high v /\ 0 <= medium v /\ 0 <= low v.

(** The penalty as the specification writes it: weighted, capped per
    severity, and capped at 30 in all. *)
Definition cappedPenalty (v : VulnerabilityData) : Z :=
  Z.min 30
    (25 * Z.min (critical v) 3 + 12 * Z.min (high v) 5
     + 5 * Z.min (medium v) 8 + 2 * Z.min (low v) 10).

(** The conditions of the three upper risk levels. *)
Definition lowRisk (score : Q) (v : VulnerabilityData) : Prop :=
  (85 <= score)%Q /\ critical v = 0 /\ high v <= 1.

Definition mediumRisk (score : Q) (v : VulnerabilityData) : Prop :=
  (70 <= score)%Q /\ critical v = 0.

Definition highRisk (score : Q) (v : VulnerabilityData) : Prop :=
  (50 <= score)%Q \/ 2 < high v.

Definition noVulnerabilities : VulnerabilityData :=
  {| critical := 0; high := 0; medium := 0; low := 0 |}.

(** A header that is present with a non-empty value. *)
Definition presentHeader (hdrs : gmap string string) (n v : string) : Prop :=
  hdrs !! n = Some v /\ v <> "".

(** The three headers with a graded quality, at their best. *)
Definition excellentCSP (v : string) : Prop :=
  JS.includes v "default-src" = true
  /\ JS.includes v "script-src" = true
  /\ JS.includes v "style-src" = true
  /\ JS.includes v "unsafe-inline" = false
  /\ (JS.includes v "nonce-" = true \/ JS.includes v "sha256-" = true).

Definition excellentHSTS (v : string) : Prop :=
  JS.includes v "max-age=" = true
  /\ JS.includes v "includeSubDomains" = true
  /\ JS.includes v "preload" = true.

Definition excellentFrameOptions (v : string) : Prop :=
  JS.includes v "DENY" = true \/ JS.includes v "SAMEORIGIN" = true.

(** A response that carries all seven headers at that quality. *)
Definition excellentHeaders : gmap string string :=
  list_to_map
    [ ("content-security-policy",
       "default-src 'self'; script-src 'nonce-abc'; style-src 'self'");
      ("strict-transport-security",
       "max-age=31536000; includeSubDomains; preload");
      ("x-frame-options", "DENY");
      ("x-content-type-options", "nosniff");
      ("referrer-policy", "no-referrer");
      ("permissions-policy", "geolocation=()");
      ("x-xss-protection", "1; mode=block") ].

(** ** False-positive filter *)

(** The text of a finding mentions [w], whatever the case of its letters. *)
Definition mentions (v : VulnerableTechnology) (w : string) : Prop :=
  exists pre post, JS.toLowerCase (vulnerability v) = pre ++ w ++ post.

Definition googleWords : list string :=
  ["google"; "gtm"; "tag manager"; "maps api"; "analytics"; "firebase"; "gapi"].

Definition devWords : list string :=
  ["console.log"; "debug mode"; "development"].

Definition safeWords : list string := ["hardcoded"; "safe"; "sanitized"].

(** The findings the filter is said to keep. *)
Definition kept (v : VulnerableTechnology) : Prop :=
  (forall w, In w googleWords -> ~ mentions v w)
  /\ (forall w, In w devWords -> ~ mentions v w)
  /\ ~ (mentions v "innerhtml" /\ exists w, In w safeWords /\ mentions v w).

(** A critical finding whose text mentions analytics. *)
Definition analyticsFinding : VulnerableTechnology :=
  {| name := "Tracker";
     version := "1.0";
     vulnerability := "Analytics script leaks session tokens";
     severity := critical_;
     lineNumbers := None;
     recommendation := None |}.

(** ** Regular expressions *)

(** Every character of [w] is in [cs]. *)
Fixpoint allIn (cs : charset) (w : string) : bool :=
  match w with
  | EmptyString => true
  | String c w' => cs c && allIn cs w'
  end.

(** The words of an expression without anchors; a group is transparent. *)
Fixpoint Lang (r : regex) (w : string) : Prop :=
  match r with
  | Empty => w = ""
  | Char cs => exists c, w = String c "" /\ cs c = true
  | Seq r1 r2 => exists w1 w2, w = w1 ++ w2 /\ Lang r1 w1 /\ Lang r2 w2
  | Alt r1 r2 => Lang r1 w \/ Lang r2 w
  | Star cs => allIn cs w = true
  | Group r1 => Lang r1 w
  | Bol => False
  | Eol => False
  end.

(** The longest front of [s] within [cs], and what follows it. *)
Fixpoint takeWhile (cs : charset) (s : string) : string :=
  match s with
  | String c s' => if cs c then String c (takeWhile cs s') else ""
  | EmptyString => ""
  end.

Fixpoint dropWhile (cs : charset) (s : string) : string :=
  match s with
  | String c s' => if cs c then dropWhile cs s' else s
  | EmptyString => ""
  end.

(** An expression without [^] and [$]. *)
Fixpoint anchorFree (r : regex) : bool :=
  match r with
  | Bol | Eol => false
  | Seq r1 r2 | Alt r1 r2 => anchorFree r1 && anchorFree r2
  | Group r1 => anchorFree r1
  | Empty | Char _ | Star _ => true
  end.

(** A word of the expression occurs in the text. *)
Definition occursIn (r : regex) (s : string) : Prop :=
  exists pre w post, s = pre ++ w ++ post /\ Lang r w.

(** ** Code patterns *)

Definition q : string := String dquote "".

(** The call of the scenario: [$(] [quote] [#x] [quote] [).html(nombre)]. *)
Definition jqueryHtmlCall : string :=
  "$(" ++ q ++ "#x" ++ q ++ ").html(nombre)".

(** The assignment of the scenario: [div.innerHTML =], then the literal
    [<b>static</b>] between double quotes. *)
Definition staticInnerHTML : string :=
  "div.innerHTML = " ++ q ++ "<b>static</b>" ++ q.

Definition consoleVulnerability : string :=
  "Console logging in production code".

Definition debugVulnerability : string :=
  "Debug mode enabled in production".

Definition consolePatternText : string :=
  "Console logging in production code - Puede exponer información sensible en navegador del usuario".

Definition debugPatternText : string :=
  "Debug mode enabled in production - Información de depuración expuesta puede ayudar a atacantes".

(** The findings hold both a code-pattern finding and a configuration
    finding for one issue, of the same severity. *)
Definition countedTwice (findings : list VulnerableTechnology)
    (patternText configName configText : string) (sev : Severity) : Prop :=
  exists f1 f2,
    In f1 findings /\ In f2 findings
    /\ name f1 = "JavaScript Code Pattern"
    /\ vulnerability f1 = patternText /\ severity f1 = sev
    /\ name f2 = configName
    /\ vulnerability f2 = configText /\ severity f2 = sev.

(** [console.log], [console.error] or [console.warn] in any letter case,
    optional white space, and an opening parenthesis. *)
Definition consoleMethods : list string :=
  ["console.log"; "console.error"; "console.warn"].

Definition hasConsoleCall (html : string) : Prop :=
  exists pre method ws post,
    html = pre ++ method ++ ws ++ "(" ++ post
    /\ In (JS.toLowerCase method) consoleMethods
    /\ allIn space ws = true.

(** A finding of the list has this name, this text and this severity. *)
Definition reported (findings : list VulnerableTechnology)
    (findingName text : string) (sev : Severity) : Prop :=
  exists f,
    In f findings /\ name f = findingName /\ vulnerability f = text
    /\ severity f = sev.

Definition sameSeverity (a b : Severity) : bool :=
  match a, b with
  | low_, low_ | medium_, medium_ | high_, high_ | critical_, critical_ => true
  | _, _ => false
  end.

(** How many findings of a list have a given severity. *)
Definition severityCount (sev : Severity) (l : list VulnerableTechnology)
    : Z :=
  Z.of_nat (List.length
              (List.filter (fun v => sameSeverity (severity v) sev) l)).

(** The two code patterns that have a configuration check beside them. *)
Definition consoleCodePattern : CodePattern :=
  codePattern consolePattern consoleVulnerability low_
    "Puede exponer información sensible en navegador del usuario"
    "Remover console logs en producción o usar logging libraries".

Definition debugCodePattern : CodePattern :=
  codePattern debugPattern debugVulnerability medium_
    "Información de depuración expuesta puede ayudar a atacantes"
    "Deshabilitar debug en producción y usar configuración por entorno".

(** ** robots.txt *)

(** A [robots.txt] that was found, with the given text. *)
Definition robotsResponse (body : string) : result Response :=
  Return {| ok := true; status := 200; responseHeaders := ∅; text := body |}.

(** The wildcard section forbids one directory only. *)
Definition pathSpecificRobots : string :=
  "User-agent: *" ++ String newline "Disallow: /private/".

(** ** Strict-Transport-Security *)

(** The value of a string of decimal digits. *)
Definition decimalValue (ds : string) : Z :=
  fold_left (fun acc c => 10 * acc + (Z.of_N (N_of_ascii c) - 48))
    (list_ascii_of_string ds) 0.

(** The binary64 number the Standard Library rounds an integer to. *)
Definition libraryDouble (z : Z) : number Z :=
  match binary_normalize prec emax z 0 false with
  | S754_zero _ => Num 0
  | S754_infinity false => PosInfinity
  | S754_infinity true => NegInfinity
  | S754_nan => NaN
  | S754_finite s m e =>
      let magnitude :=
        if 0 <=? e then Z.pos m * 2 ^ e else Z.pos m / 2 ^ (- e) in
      Num (if s then - magnitude else magnitude)
  end.

(** Integers on both sides of the places where the rounding changes. *)
Definition roundingSamples : list Z :=
  [ 0; 1; 31535999; 31536000; 2 ^ 53 - 1; 2 ^ 53; 2 ^ 53 + 1; 2 ^ 53 + 2;
    2 ^ 53 + 3; 2 ^ 54 + 2; 2 ^ 54 + 5; 2 ^ 54 + 6; 2 ^ 54 + 7;
    2 ^ 60 + 128; 2 ^ 60 + 129; 2 ^ 60 + 383; 2 ^ 60 + 384; 2 ^ 60 + 385;
    99999999999999999999; 123456789012345678901234567890;
    2 ^ 200 + 1; 2 ^ 200 + 2 ^ 147; 2 ^ 200 + 2 ^ 147 + 1;
    2 ^ 200 + 3 * 2 ^ 147; 2 ^ 1023 + 2 ^ 970; 2 ^ 1023 + 2 ^ 971 - 1;
    2 ^ 1023 + 3 * 2 ^ 970; 2 ^ 1024 - 2 ^ 970 - 1; 2 ^ 1024 - 2 ^ 970;
    2 ^ 1024 - 1; 2 ^ 1024; 10 ^ 400 ].

Definition headNotDigit (rest : string) : Prop :=
  match rest with
  | String c _ => digit c = false
  | EmptyString => True
  end.

(** [s] starts with [max-age=] and the digits [ds], all of them. *)
Definition maxAgeDigitsHere (s ds : string) : Prop :=
  exists rest,
    s = "max-age=" ++ ds ++ rest
    /\ ds <> "" /\ allIn digit ds = true /\ headNotDigit rest.

(** The first [max-age=] of [h] that digits follow has the value [n]. *)
Definition firstMaxAge (h : string) (n : Z) : Prop :=
  exists pre s ds,
    h = pre ++ s /\ maxAgeDigitsHere s ds /\ n = decimalValue ds
    /\ forall pre' s' ds',
         h = pre' ++ s' -> (String.length pre' < String.length pre)%nat ->
         ~ maxAgeDigitsHere s' ds'.

(** The digits after a leading [max-age=], as the pattern takes them, and
    the first such digits in a text. *)
Definition hereDigits (s : string) : option string :=
  if String.prefix "max-age=" s then
    match drop 8 s with
    | String c t => if digit c then Some (String c (takeWhile digit t)) else None
    | EmptyString => None
    end
  else None.

Fixpoint firstHere (s : string) : option string :=
  match hereDigits s with
  | Some ds => Some ds
  | None =>
      match s with
      | String _ s' => firstHere s'
      | EmptyString => None
      end
  end.

(** Response headers with only [Strict-Transport-Security]. *)
Definition stsHeader (v : string) : gmap string string :=
  {[ "strict-transport-security" := v ]}.

(** ** Determinism *)

Definition nameLe (a b : string) : Prop := String.leb a b = true.

(** What an SSL analysis says apart from the days the certificate has
    left, and those days. *)
Definition sslWithoutDays (a : SSLAnalysis)
    : bool * bool * string * bool
      * option (string * string * string * bool) :=
  (hasSSL a, validCertificate a, tlsVersion a, httpsEnabled a,
   option_map
     (fun i => (certificateIssuer i, protocolVersion i, cipherSuite i,
                mixedContent i))
     (additionalInfo a)).

Definition sslDays (a : SSLAnalysis) : option Z :=
  option_map (fun i => daysRemaining (certificateValidity i))
    (additionalInfo a).

(** A number [Math.random()] can return. *)
Definition isDraw (r : Q) : Prop := (0 <= r)%Q /\ (r < 1)%Q.

Definition plainResponse : Response :=
  {| ok := true; status := 200; responseHeaders := ∅; text := "" |}.

Definition emptyDocument : Document :=
  {| querySelector := fun _ => false; scripts := []; links := [];
     metaGeneratorContent := None |}.

(** The selectors the detector queries. *)
Definition detectorSelectors : list string :=
  [ "[data-reactroot], [data-react]"; "#app[data-v-app]"; "[data-svelte]";
    ".container-fluid, .container";
    "[class*=" ++ String dquote "tw-" ++ String dquote "]";
    ".is-primary"; "[data-sticky]"; ".ui.segment"; "#__next";
    "[data-n-head]"; "[data-gatsby]"; "[data-vite-plugin]" ].

(** Two parsed pages that the detector cannot tell apart: they answer
    its selectors alike and have the same script sources, link targets
    and generator. *)
Definition sameObservations (doc1 doc2 : Document) : Prop :=
  Forall (fun selector => querySelector doc1 selector
                          = querySelector doc2 selector)
    detectorSelectors
  /\ scripts doc1 = scripts doc2
  /\ links doc1 = links doc2
  /\ metaGeneratorContent doc1 = metaGeneratorContent doc2.

(** The response headers that the header analysis and the SSL analysis
    report on. *)
Definition analysedHeaders : list string :=
  [ "content-security-policy"; "strict-transport-security";
    "x-xss-protection"; "x-content-type-options"; "referrer-policy";
    "x-frame-options"; "server"; "x-powered-by" ].

Definition sameHeaders (response1 response2 : Response) : Prop :=
  Forall (fun header => responseHeaders response1 !! header
                        = responseHeaders response2 !! header)
    analysedHeaders.

(** A page parsed otherwise than [emptyDocument], and a response other
    than [plainResponse], with the same answers where the analysis
    looks. *)
Definition otherDocument : Document :=
  {| querySelector := fun selector => String.eqb selector "#banner";
     scripts := []; links := []; metaGeneratorContent := None |}.

Definition otherResponse : Response :=
  {| ok := false; status := 503;
     responseHeaders := {[ "x-request-id" := "7f3a" ]};
     text := "Service Unavailable" |}.

(** * Properties *)

(** ** Strings *)

Lemma append_cons (c : ascii) (s t : string) :
  String c s ++ t = String c (s ++ t).
Proof. reflexivity. Qed.

Lemma append_empty_l (s : string) : "" ++ s = s.
Proof. reflexivity. Qed.

Lemma append_empty_r (s : string) : s ++ "" = s.
Proof.
  induction s as [|c s IH]; [reflexivity | now rewrite append_cons, IH].
Qed.

Lemma append_assoc (a b c : string) : (a ++ b) ++ c = a ++ (b ++ c).
Proof.
  induction a as [|x a IH]; [reflexivity | now rewrite !append_cons, IH].
Qed.

Lemma length_append (a b : string) :
  String.length (a ++ b) = (String.length a + String.length b)%nat.
Proof.
  induction a as [|x a IH]; [reflexivity|].
  rewrite append_cons. simpl. now rewrite IH.
Qed.

Lemma prefix_append (t s : string) : String.prefix t (t ++ s) = true.
Proof.
  induction t as [|c t IH].
  - rewrite append_empty_l. now destruct s.
  - rewrite append_cons. simpl.
    destruct (ascii_dec c c) as [_|Hne]; [exact IH | now elim Hne].
Qed.

Lemma prefix_inv (t s : string) :
  String.prefix t s = true -> exists r, s = t ++ r.
Proof.
  revert s; induction t as [|c t IH]; intros s H.
  - now exists s.
  - destruct s as [|d s]; simpl in H; [discriminate|].
    destruct (ascii_dec c d) as [->|_]; [|discriminate].
    destruct (IH _ H) as [r ->]. now exists r.
Qed.

Lemma prefix_iff (t s : string) :
  String.prefix t s = true <-> exists r, s = t ++ r.
Proof.
  split; [apply prefix_inv | intros [r ->]; apply prefix_append].
Qed.

Lemma includes_here (t post : string) : JS.includes (t ++ post) t = true.
Proof.
  destruct (t ++ post) eqn:E; cbn [JS.includes]; rewrite <- E, prefix_append;
    reflexivity.
Qed.

Lemma includes_intro (pre t post : string) :
  JS.includes (pre ++ t ++ post) t = true.
Proof.
  induction pre as [|c pre IH].
  - rewrite append_empty_l. apply includes_here.
  - rewrite append_cons. cbn [JS.includes]. rewrite IH. apply orb_true_r.
Qed.

Lemma includes_inv (s t : string) :
  JS.includes s t = true -> exists pre post, s = pre ++ t ++ post.
Proof.
  induction s as [|c s IH]; cbn [JS.includes]; intros H.
  - rewrite orb_false_r in H. apply prefix_inv in H as [r ->].
    now exists "", r.
  - apply orb_true_iff in H as [H|H].
    + apply prefix_inv in H as [r ->]. now exists "", r.
    + destruct (IH H) as (pre & post & ->). now exists (String c pre), post.
Qed.

(** [s.includes(t)] holds exactly when [t] occurs in [s]. *)
Lemma includes_iff (s t : string) :
  JS.includes s t = true <-> exists pre post, s = pre ++ t ++ post.
Proof.
  split; [apply includes_inv | intros (pre & post & ->); apply includes_intro].
Qed.

(** What contains a text contains every part of it. *)
Lemma includes_part (s a t b : string) :
  JS.includes s (a ++ t ++ b) = true -> JS.includes s t = true.
Proof.
  intros H. apply includes_inv in H as (pre & post & ->).
  replace (pre ++ (a ++ t ++ b) ++ post) with ((pre ++ a) ++ t ++ (b ++ post)).
  - apply includes_intro.
  - now rewrite !append_assoc.
Qed.

Lemma toLowerCase_append (a b : string) :
  JS.toLowerCase (a ++ b) = JS.toLowerCase a ++ JS.toLowerCase b.
Proof.
  induction a as [|c a IH]; [reflexivity|].
  rewrite append_cons. cbn [JS.toLowerCase]. now rewrite IH, append_cons.
Qed.

Lemma toLowerCase_append_inv (s a b : string) :
  JS.toLowerCase s = a ++ b ->
  exists s1 s2,
    s = s1 ++ s2 /\ JS.toLowerCase s1 = a /\ JS.toLowerCase s2 = b.
Proof.
  revert s. induction a as [|c a IH]; intros s H.
  - exists "", s. auto.
  - destruct s as [|d s]; [discriminate|].
    rewrite append_cons in H. cbn [JS.toLowerCase] in H.
    injection H as Hd Hs. apply IH in Hs as (s1 & s2 & -> & <- & <-).
    exists (String d s1), s2. cbn [JS.toLowerCase]. now rewrite Hd.
Qed.

(** ** Numbers *)

Lemma round_inject_Z (z : Z) : JS.round (inject_Z z) = z.
Proof.
  unfold JS.round, Qfloor, Qplus, inject_Z. simpl Qnum. simpl Qden.
  change (Z.pos (1 * 10)) with 10.
  replace (z * 10 + 5 * 1) with (5 + z * 10) by lia.
  rewrite Z.div_add by lia. reflexivity.
Qed.

(** ** Vulnerability penalty *)

Lemma penalty_formula (v : VulnerabilityData) :
  validCounts v ->
  evaluateVulnerabilitiesRealistically v = - cappedPenalty v.
Proof.
  intros (Hc & Hh & Hm & Hl).
  unfold evaluateVulnerabilitiesRealistically, cappedPenalty,
    VULNERABILITY_PENALTIES.
  rewrite round_inject_Z.
  destruct (Z.ltb_spec 0 (critical v)), (Z.ltb_spec 0 (high v)),
    (Z.ltb_spec 0 (medium v)), (Z.ltb_spec 0 (low v)); lia.
Qed.

(** C2.  For counts that are not negative, the vulnerability penalty is
    the negation of min(30, 25 min(critical,3) + 12 min(high,5)
    + 5 min(medium,8) + 2 min(low,10)); its magnitude is at most 30, does
    not decrease when a count grows, and ten critical plus ten high
    findings give exactly -30. *)
Theorem vulnerability_penalty_capped (v : VulnerabilityData) :
  validCounts v ->
  evaluateVulnerabilitiesRealistically v = - cappedPenalty v
  /\ Z.abs (evaluateVulnerabilitiesRealistically v) <= 30
  /\ (forall v',
        validCounts v' ->
        critical v <= critical v' -> high v <= high v' ->
        medium v <= medium v' -> low v <= low v' ->
        Z.abs (evaluateVulnerabilitiesRealistically v)
        <= Z.abs (evaluateVulnerabilitiesRealistically v'))
  /\ evaluateVulnerabilitiesRealistically
       {| critical := 10; high := 10; medium := 0; low := 0 |} = -30.
Proof.
  intros Hv. rewrite (penalty_formula v Hv).
  pose proof Hv as (? & ? & ? & ?).
  split; [reflexivity|]. split; [unfold cappedPenalty; lia|].
  split; [|reflexivity].
  intros v' Hv' Hc Hh Hm Hl. rewrite (penalty_formula v' Hv').
  destruct Hv' as (? & ? & ? & ?). unfold cappedPenalty. lia.
Qed.

Lemma vulnerability_penalty_capped_witness :
  Z.abs (evaluateVulnerabilitiesRealistically
           {| critical := 0; high := 1; medium := 1; low := 0 |})
  <= Z.abs (evaluateVulnerabilitiesRealistically
              {| critical := 0; high := 1; medium := 2; low := 3 |}).
Proof.
  apply (vulnerability_penalty_capped
           {| critical := 0; high := 1; medium := 1; low := 0 |});
    unfold validCounts; simpl; lia.
Defined.

(** ** Risk level *)

Lemma lowRisk_test (score : Q) (v : VulnerabilityData) :
  validCounts v ->
  Qle_bool 85 score && negb (0 <? critical v) && (high v <=? 1) = true
  <-> lowRisk score v.
Proof.
  intros (Hc & _). unfold lowRisk.
  rewrite !andb_true_iff, negb_true_iff, Qle_bool_iff, Z.ltb_ge, Z.leb_le.
  intuition lia.
Qed.

Lemma mediumRisk_test (score : Q) (v : VulnerabilityData) :
  validCounts v ->
  Qle_bool 70 score && negb (0 <? critical v) = true <-> mediumRisk score v.
Proof.
  intros (Hc & _). unfold mediumRisk.
  rewrite !andb_true_iff, negb_true_iff, Qle_bool_iff, Z.ltb_ge.
  intuition lia.
Qed.

Lemma highRisk_test (score : Q) (v : VulnerabilityData) :
  Qle_bool 50 score || (2 <? high v) = true <-> highRisk score v.
Proof.
  unfold highRisk. rewrite orb_true_iff, Qle_bool_iff, Z.ltb_lt. reflexivity.
Qed.

Ltac risk_cases :=
  split; [|split; [|split; [|split]]];
  try (split; intros; try discriminate; try reflexivity; tauto).

(** C7.  The risk level follows the first condition that holds, in this
    order: Bajo (low) exactly when the score is at least 85 with no
    critical and at most one high finding; otherwise Medio (medium) exactly
    when the score is at least 70 with no critical finding; otherwise Alto
    (high) exactly when the score is at least 50 or there are more than two
    high findings; otherwise Critico (critical).  A score below 50 with
    more than two high findings is therefore Alto. *)
Theorem risk_level_priority (score : Q) (v : VulnerabilityData) :
  validCounts v ->
  (calculateRiskLevel (Num score) v = "Bajo" <-> lowRisk score v)
  /\ (calculateRiskLevel (Num score) v = "Medio" <->
      ~ lowRisk score v /\ mediumRisk score v)
  /\ (calculateRiskLevel (Num score) v = "Alto" <->
      ~ lowRisk score v /\ ~ mediumRisk score v /\ highRisk score v)
  /\ (calculateRiskLevel (Num score) v = "Crítico" <->
      ~ lowRisk score v /\ ~ mediumRisk score v /\ ~ highRisk score v)
  /\ ((score < 50)%Q -> 2 < high v -> calculateRiskLevel (Num score) v = "Alto").
Proof.
  intros Hv.
  assert (Hlt : (score < 50)%Q -> ~ lowRisk score v /\ ~ mediumRisk score v).
  { unfold lowRisk, mediumRisk. intros Hs. split; intros [H _]; lra. }
  unfold calculateRiskLevel. cbn [JS.ge].
  destruct (Qle_bool 85 score && negb (0 <? critical v) && (high v <=? 1))
    eqn:E1.
  { apply (lowRisk_test score v Hv) in E1.
    risk_cases. intros Hs ?. exfalso. apply Hlt in Hs. tauto. }
  assert (NL : ~ lowRisk score v)
    by (rewrite <- (lowRisk_test score v Hv); congruence).
  destruct (Qle_bool 70 score && negb (0 <? critical v)) eqn:E2.
  { apply (mediumRisk_test score v Hv) in E2.
    risk_cases. intros Hs ?. exfalso. apply Hlt in Hs. tauto. }
  assert (NM : ~ mediumRisk score v)
    by (rewrite <- (mediumRisk_test score v Hv); congruence).
  destruct (Qle_bool 50 score || (2 <? high v)) eqn:E3.
  { apply (highRisk_test score v) in E3.
    risk_cases. }
  assert (NH : ~ highRisk score v)
    by (rewrite <- (highRisk_test score v); congruence).
  risk_cases. intros _ ?. exfalso. apply NH. right. assumption.
Qed.

Lemma risk_level_priority_witness :
  calculateRiskLevel (Num 40%Q) {| critical := 0; high := 3; medium := 0; low := 0 |}
  = "Alto".
Proof.
  apply (risk_level_priority 40
           {| critical := 0; high := 3; medium := 0; low := 0 |}).
  - unfold validCounts; simpl; lia.
  - reflexivity.
  - simpl; lia.
Defined.

(** ** Unknown site types *)

(** A site type that is a key of neither table and not the name of a
    member of [Object.prototype]: the strict path throws the error that
    the site type is not recognised, and the permissive path returns a
    score whose baseline is the DEFAULT one, 80. *)
Lemma other_unknown_site_types (siteType : string)
    (hdrs : gmap string string) (vulns : VulnerabilityData)
    (context : option SiteContext) :
  BaselineScorer.BASELINES !! siteType = None ->
  SITE_BASELINES !! siteType = None ->
  ~ In siteType JS.objectPrototype ->
  BaselineScorer.analyzeSite siteType hdrs vulns
  = Throw ("Tipo de sitio no reconocido: " ++ siteType)
  /\ baseline (details (calculateRealisticScore hdrs vulns (Some siteType) context))
     = JS.Value 80.
Proof.
  intros Hstrict Hpermissive Hown.
  assert (Hp : existsb (String.eqb siteType) JS.objectPrototype = false).
  { destruct (existsb _ _) eqn:E; [|reflexivity].
    apply existsb_exists in E as (k & Hk & E).
    apply String.eqb_eq in E. subst k. contradiction. }
  split.
  - unfold BaselineScorer.analyzeSite, JS.get. rewrite Hstrict, Hp.
    reflexivity.
  - unfold calculateRealisticScore. cbn [details baseline].
    change (default "DEFAULT" (Some siteType)) with siteType.
    unfold lookupBaseline, JS.get. rewrite Hpermissive, Hp. reflexivity.
Qed.

(** The name of a member of [Object.prototype] is a key of neither
    table. *)
Lemma inherited_names_are_unknown (siteType : string) :
  In siteType JS.objectPrototype ->
  BaselineScorer.BASELINES !! siteType = None
  /\ SITE_BASELINES !! siteType = None.
Proof.
  intros H. cbn [JS.objectPrototype In] in H.
  repeat (destruct H as [<-|H]; [split; vm_compute; reflexivity|]).
  contradiction.
Qed.

Lemma get_inherited {A : Type} (o : gmap string A) (key : string) :
  In key JS.objectPrototype -> o !! key = None ->
  JS.get o key = Some (JS.Member key).
Proof.
  intros Hin Ho. unfold JS.get. rewrite Ho.
  replace (existsb (String.eqb key) JS.objectPrototype) with true;
    [reflexivity|].
  symmetry. apply existsb_exists. exists key. split; [assumption|].
  apply String.eqb_refl.
Qed.

(** With [NaN] for the score, no grade but F is reached, and the risk
    level is decided by the number of high findings alone. *)
Lemma grade_of_NaN : calculateGrade NaN = "F".
Proof. reflexivity. Qed.

Lemma risk_level_of_NaN (v : VulnerabilityData) :
  calculateRiskLevel NaN v = if 2 <? high v then "Alto" else "Crítico".
Proof. reflexivity. Qed.

(** A site type that is the name of a member of [Object.prototype]: the
    strict path finds the member, takes it for a configuration and raises
    a [TypeError]; the permissive path takes it for the baseline, and the
    total, the overall score and the grade are [NaN], [NaN] and F. *)
Lemma inherited_site_types (siteType : string)
    (hdrs : gmap string string) (vulns : VulnerabilityData)
    (context : option SiteContext) :
  In siteType JS.objectPrototype ->
  BaselineScorer.analyzeSite siteType hdrs vulns = ThrowTypeError
  /\ baseline (details (calculateRealisticScore hdrs vulns (Some siteType) context))
     = JS.Member siteType
  /\ total (details (calculateRealisticScore hdrs vulns (Some siteType) context))
     = NaN
  /\ overall (calculateRealisticScore hdrs vulns (Some siteType) context) = NaN
  /\ grade (calculateRealisticScore hdrs vulns (Some siteType) context) = "F".
Proof.
  intros Hin. destruct (inherited_names_are_unknown siteType Hin) as [Hs Hp].
  split.
  - unfold BaselineScorer.analyzeSite.
    rewrite (get_inherited _ _ Hin Hs). reflexivity.
  - unfold calculateRealisticScore.
    cbn [details baseline total overall grade].
    change (default "DEFAULT" (Some siteType)) with siteType.
    unfold lookupBaseline. rewrite (get_inherited _ _ Hin Hp).
    cbn [sumOfScores JS.min JS.max JS.roundNumber].
    repeat split; reflexivity.
Qed.

(** C8.  The site type toString is a key of neither baseline table, yet
    the strict path (analyzeSite) does not throw the error that the site
    type is not recognised: its lookup finds the function every object
    inherits under that name, and a TypeError is raised further on.  The
    permissive path (calculateRealisticScore) does not fall back on the
    DEFAULT baseline 80 either: the function is the baseline, and the
    total, the overall score and the grade are NaN, NaN and F. *)
Theorem toString_site_type_paths (hdrs : gmap string string)
    (vulns : VulnerabilityData) (context : option SiteContext) :
  BaselineScorer.BASELINES !! "toString" = None
  /\ SITE_BASELINES !! "toString" = None
  /\ BaselineScorer.analyzeSite "toString" hdrs vulns = ThrowTypeError
  /\ baseline (details (calculateRealisticScore hdrs vulns (Some "toString") context))
     = JS.Member "toString"
  /\ total (details (calculateRealisticScore hdrs vulns (Some "toString") context))
     = NaN
  /\ overall (calculateRealisticScore hdrs vulns (Some "toString") context)
     = NaN
  /\ grade (calculateRealisticScore hdrs vulns (Some "toString") context) = "F".
Proof.
  assert (Hin : In "toString" JS.objectPrototype)
    by (cbn; do 8 right; left; reflexivity).
  split; [apply (inherited_names_are_unknown _ Hin)|].
  split; [apply (inherited_names_are_unknown _ Hin)|].
  apply (inherited_site_types _ hdrs vulns context Hin).
Qed.

(** ** False-positive filter *)

Lemma mentions_iff (v : VulnerableTechnology) (w : string) :
  JS.includes (JS.toLowerCase (vulnerability v)) w = true <-> mentions v w.
Proof. apply includes_iff. Qed.

Lemma mentions_false (v : VulnerableTechnology) (w : string) :
  JS.includes (JS.toLowerCase (vulnerability v)) w = false <-> ~ mentions v w.
Proof.
  rewrite <- mentions_iff.
  destruct (JS.includes _ w); split; intros; try discriminate; congruence.
Qed.

Lemma isGoogleSafe_false (v : VulnerableTechnology) :
  isGoogleSafe v = false <-> forall w, In w googleWords -> ~ mentions v w.
Proof.
  unfold isGoogleSafe, googleWords. rewrite !orb_false_iff, !mentions_false.
  split.
  - intros H w Hw Hm. simpl in Hw.
    repeat (destruct Hw as [<-|Hw]; [tauto|]). contradiction.
  - intros H. repeat split; apply H; simpl; tauto.
Qed.

Lemma isDevSafe_false (v : VulnerableTechnology) :
  isDevSafe v = false <-> forall w, In w devWords -> ~ mentions v w.
Proof.
  unfold isDevSafe, devWords. rewrite !orb_false_iff, !mentions_false.
  split.
  - intros H w Hw Hm. simpl in Hw.
    repeat (destruct Hw as [<-|Hw]; [tauto|]). contradiction.
  - intros H. repeat split; apply H; simpl; tauto.
Qed.

Lemma isSafeInnerHTML_false (v : VulnerableTechnology) :
  isSafeInnerHTML v = false <->
  ~ (mentions v "innerhtml" /\ exists w, In w safeWords /\ mentions v w).
Proof.
  unfold isSafeInnerHTML, safeWords.
  rewrite andb_false_iff, !orb_false_iff, !mentions_false.
  split.
  - intros H [Hi (w & Hw & Hm)]. simpl in Hw.
    destruct H as [H|H]; [tauto|].
    repeat (destruct Hw as [<-|Hw]; [tauto|]). contradiction.
  - intros H.
    destruct (JS.includes (JS.toLowerCase (vulnerability v)) "innerhtml") eqn:E.
    + right. apply mentions_iff in E.
      repeat split; intros Hm; apply H; split; try assumption;
        eexists; (split; [|exact Hm]); simpl; tauto.
    + left. now apply mentions_false.
Qed.

(** C9.  The filter keeps, in their order, exactly the findings whose
    lower-cased text mentions none of the Google words, none of the
    development words, and is not an innerhtml text that also mentions
    hardcoded, safe or sanitized; a finding that mentions analytics or
    console.log is dropped, whatever its severity. *)
Theorem filterFalsePositives_keeps (vs : list VulnerableTechnology) :
  (forall v, In v (filterFalsePositives vs) <-> In v vs /\ kept v)
  /\ (exists keep,
        (forall v, keep v = true <-> kept v)
        /\ filterFalsePositives vs = List.filter keep vs)
  /\ (forall v, mentions v "analytics" \/ mentions v "console.log" ->
        ~ In v (filterFalsePositives vs)).
Proof.
  assert (T : forall v,
            negb (isGoogleSafe v) && negb (isDevSafe v)
            && negb (isSafeInnerHTML v) = true <-> kept v).
  { intros v. unfold kept. rewrite !andb_true_iff, !negb_true_iff.
    rewrite isGoogleSafe_false, isDevSafe_false, isSafeInnerHTML_false.
    tauto. }
  assert (K : forall v, In v (filterFalsePositives vs) <-> In v vs /\ kept v).
  { intros v. unfold filterFalsePositives. rewrite filter_In, T. tauto. }
  split; [exact K|]. split.
  - eexists. split; [exact T | reflexivity].
  - intros v Hm Hin. apply K in Hin as [_ (Hg & Hd & _)].
    destruct Hm as [Hm|Hm].
    + apply (Hg "analytics"); [simpl; tauto | exact Hm].
    + apply (Hd "console.log"); [simpl; tauto | exact Hm].
Qed.

Lemma filterFalsePositives_keeps_witness :
  ~ In analyticsFinding (filterFalsePositives [analyticsFinding]).
Proof.
  destruct (filterFalsePositives_keeps [analyticsFinding]) as (_ & _ & H).
  apply H. left. exists "", " script leaks session tokens". reflexivity.
Defined.

(** ** The best financial site *)

Lemma truthy_nonempty (v : string) : v <> "" -> JS.truthy (Some v) = Some v.
Proof. destruct v; [congruence | reflexivity]. Qed.

Lemma headerStep_present (hdrs : gmap string string)
    (context : option SiteContext) (p m : float) (n v : string) (w : float)
    (c : Criticality) :
  presentHeader hdrs n v ->
  headerStep hdrs context (p, m) (n, (w, c))
  = ((p + w * evaluateHeaderQuality n v)%float, m).
Proof.
  intros [Hn Hv]. unfold headerStep. rewrite Hn.
  unfold JS.orElse. rewrite !truthy_nonempty by assumption. reflexivity.
Qed.

Lemma includes_false_part (s a t b : string) :
  JS.includes s t = false -> JS.includes s (a ++ t ++ b) = false.
Proof.
  intros H. destruct (JS.includes s (a ++ t ++ b)) eqn:E; [|reflexivity].
  apply includes_part in E. congruence.
Qed.

Lemma excellentCSP_quality (v : string) :
  excellentCSP v -> evaluateCSPQuality v = 1.0%float.
Proof.
  intros (H1 & H2 & H3 & H4 & H5).
  unfold evaluateCSPQuality. cbn [fold_left].
  rewrite H1, H2, H3.
  assert (H4' : JS.includes v "'unsafe-inline'" = false)
    by exact (includes_false_part v "'" "unsafe-inline" "'" H4).
  rewrite H4'.
  destruct H5 as [-> | ->];
    destruct (JS.includes v "nonce-"); vm_compute; reflexivity.
Qed.

Lemma excellentHSTS_quality (v : string) :
  excellentHSTS v -> evaluateHSTSQuality v = 1.0%float.
Proof.
  intros (H1 & H2 & H3). unfold evaluateHSTSQuality.
  rewrite H1, H2, H3. vm_compute. reflexivity.
Qed.

Lemma excellentFrameOptions_quality (v : string) :
  excellentFrameOptions v ->
  evaluateHeaderQuality "x-frame-options" v = 1.0%float.
Proof.
  intros H. unfold evaluateHeaderQuality. cbn [String.eqb Ascii.eqb Bool.eqb].
  destruct H as [-> | ->]; [reflexivity | rewrite orb_true_r; reflexivity].
Qed.

Lemma present_quality (n v : string) :
  v <> "" ->
  n <> "content-security-policy" -> n <> "strict-transport-security" ->
  n <> "x-frame-options" ->
  evaluateHeaderQuality n v = 1.0%float.
Proof.
  intros Hv H1 H2 H3. unfold evaluateHeaderQuality.
  apply String.eqb_neq in H1, H2, H3. rewrite H1, H2, H3.
  destruct v; [congruence | reflexivity].
Qed.

(** The points are sums of doubles: with two of the good directives and
    an inline allowance, the quality of the policy is 0.5 + 0.2 + 0.2,
    which is 0.8999999999999999, and 25 times that rounds to 22 (the
    exact 22.5 would round to 23). *)
Lemma header_points_are_doubles :
  present
    (evaluateHeadersRealistically
       {[ "content-security-policy" :=
            "default-src 'self' 'unsafe-inline'; script-src 'self'" ]}
       None)
  = Num 22.
Proof. vm_compute. reflexivity. Qed.

(** C5.  For the site type financial, with the seven tracked headers
    present, the Content-Security-Policy, Strict-Transport-Security and
    X-Frame-Options ones at their best quality, and no vulnerability of
    any severity, the overall score is at least 95 and the grade is A+,
    whatever the context. *)
Theorem financial_excellent_headers (hdrs : gmap string string)
    (context : option SiteContext) (cspV hstsV xfo xcto rp pp xxp : string) :
  presentHeader hdrs "content-security-policy" cspV -> excellentCSP cspV ->
  presentHeader hdrs "strict-transport-security" hstsV -> excellentHSTS hstsV ->
  presentHeader hdrs "x-frame-options" xfo -> excellentFrameOptions xfo ->
  presentHeader hdrs "x-content-type-options" xcto ->
  presentHeader hdrs "referrer-policy" rp ->
  presentHeader hdrs "permissions-policy" pp ->
  presentHeader hdrs "x-xss-protection" xxp ->
  (exists points,
     overall (calculateRealisticScore hdrs noVulnerabilities
                (Some "financial") context) = Num points
     /\ 95 <= points)
  /\ grade (calculateRealisticScore hdrs noVulnerabilities
              (Some "financial") context) = "A+".
Proof.
  intros Pcsp Ecsp Phsts Ehsts Pxfo Exfo Pxcto Prp Ppp Pxxp.
  assert (Hh : evaluateHeadersRealistically hdrs context
               = {| present := Num 89; missing := Num 0;
                    score := Num 89 |}).
  { unfold evaluateHeadersRealistically, HEADER_WEIGHTS. cbn [fold_left].
    rewrite (headerStep_present _ _ _ _ _ _ _ _ Pcsp).
    rewrite (headerStep_present _ _ _ _ _ _ _ _ Phsts).
    rewrite (headerStep_present _ _ _ _ _ _ _ _ Pxfo).
    rewrite (headerStep_present _ _ _ _ _ _ _ _ Pxcto).
    rewrite (headerStep_present _ _ _ _ _ _ _ _ Prp).
    rewrite (headerStep_present _ _ _ _ _ _ _ _ Ppp).
    rewrite (headerStep_present _ _ _ _ _ _ _ _ Pxxp).
    rewrite (excellentFrameOptions_quality _ Exfo).
    rewrite (present_quality "x-content-type-options" xcto)
      by (apply Pxcto || discriminate).
    rewrite (present_quality "referrer-policy" rp)
      by (apply Prp || discriminate).
    rewrite (present_quality "permissions-policy" pp)
      by (apply Ppp || discriminate).
    rewrite (present_quality "x-xss-protection" xxp)
      by (apply Pxxp || discriminate).
    change (evaluateHeaderQuality "content-security-policy" cspV)
      with (evaluateCSPQuality cspV).
    change (evaluateHeaderQuality "strict-transport-security" hstsV)
      with (evaluateHSTSQuality hstsV).
    rewrite (excellentCSP_quality _ Ecsp), (excellentHSTS_quality _ Ehsts).
    vm_compute. reflexivity. }
  assert (Hb : 8 <= calculateContextualBonus hdrs noVulnerabilities context
               <= 13).
  { unfold calculateContextualBonus.
    destruct Phsts as [-> _]. destruct Ehsts as (Hm & _).
    assert (Hm' : JS.includes hstsV "max-age" = true)
      by exact (includes_part hstsV "" "max-age" "=" Hm).
    rewrite Hm'.
    cbn. change (0 + 0 + 0 + 0 =? 0) with true. cbv iota.
    destruct context as [ctx|]; [|lia].
    destruct (isBlogOrPortfolio (ctxType ctx)
              && negb (hasUserGeneratedContent ctx));
      destruct (negb (handlesFinancialData ctx) && negb (hasLoginSystem ctx)
                && negb (allowsFileUploads ctx)); lia. }
  unfold calculateRealisticScore. cbn [overall grade default]. unfold id.
  rewrite Hh. cbn [score].
  set (b := calculateContextualBonus hdrs noVulnerabilities context) in *.
  replace (lookupBaseline "financial") with (JS.Value 95)
    by (vm_compute; reflexivity).
  change (evaluateVulnerabilitiesRealistically noVulnerabilities) with 0.
  cbn [sumOfScores JS.ofInteger JS.add JS.min JS.max JS.roundNumber].
  assert (Ht : (Qmax 0 (Qmin 100
             (inject_Z 95 + inject_Z 89 + inject_Z 0 + inject_Z b)) == 100)%Q).
  { rewrite <- !inject_Z_plus.
    rewrite Q.min_l.
    - apply Q.max_r. discriminate.
    - change 100%Q with (inject_Z 100). rewrite <- Zle_Qle. lia. }
  split.
  - eexists. split; [reflexivity|].
    unfold JS.round. rewrite Ht.
    replace (Qfloor (100 + 0.5)) with 100 by reflexivity. lia.
  - unfold calculateGrade. cbn [JS.ge].
    replace (Qle_bool 95 _) with true; [reflexivity|].
    symmetry. apply Qle_bool_iff. rewrite Ht. discriminate.
Qed.

Lemma financial_excellent_headers_witness :
  (exists points,
     overall (calculateRealisticScore excellentHeaders noVulnerabilities
                (Some "financial") None) = Num points
     /\ 95 <= points)
  /\ grade (calculateRealisticScore excellentHeaders noVulnerabilities
              (Some "financial") None) = "A+".
Proof.
  apply (financial_excellent_headers excellentHeaders None
    "default-src 'self'; script-src 'nonce-abc'; style-src 'self'"
    "max-age=31536000; includeSubDomains; preload"
    "DENY" "nosniff" "no-referrer" "geolocation=()" "1; mode=block");
  unfold presentHeader, excellentCSP, excellentHSTS, excellentFrameOptions;
  repeat split; try discriminate; try reflexivity; left; reflexivity.
Defined.

(** ** The matcher of regular expressions *)

Lemma star_fallback {A : Type} (cs : charset) (s : string) (pos : nat)
    (k : string -> nat -> option A) :
  k s pos <> None -> star cs s pos k <> None.
Proof.
  intros H. destruct s as [|c s]; cbn [star]; [exact H|].
  destruct (cs c); [|exact H].
  destruct (star cs s (S pos) k); [discriminate | exact H].
Qed.

Lemma star_complete {A : Type} (cs : charset) (w : string) :
  allIn cs w = true ->
  forall (s : string) (pos : nat) (k : string -> nat -> option A),
    k s (pos + String.length w)%nat <> None ->
    star cs (w ++ s) pos k <> None.
Proof.
  induction w as [|c w IH]; intros Hw s pos k Hk.
  - rewrite append_empty_l. apply star_fallback.
    simpl in Hk. now rewrite Nat.add_0_r in Hk.
  - cbn [allIn] in Hw. apply andb_true_iff in Hw as [Hc Hw].
    rewrite append_cons. cbn [star]. rewrite Hc.
    assert (H : star cs (w ++ s) (S pos) k <> None).
    { apply IH; [exact Hw|]. simpl in Hk.
      now rewrite Nat.add_succ_r in Hk. }
    destruct (star cs (w ++ s) (S pos) k); [discriminate | contradiction].
Qed.

Lemma run_complete (r : regex) :
  forall (w : string), Lang r w ->
  forall (A : Type) (s : string) (pos : nat) (cap : option string)
         (k : string -> nat -> option string -> option A),
    (forall cap', k s (pos + String.length w)%nat cap' <> None) ->
    run r (w ++ s) pos cap k <> None.
Proof.
  induction r as [|cs|r1 IH1 r2 IH2|r1 IH1 r2 IH2|cs|r1 IH1| |];
    intros w Hw A s pos cap k Hk; cbn [Lang] in Hw; cbn [run].
  - subst w. rewrite append_empty_l. specialize (Hk cap).
    simpl in Hk. now rewrite Nat.add_0_r in Hk.
  - destruct Hw as (c & -> & Hc). rewrite append_cons, append_empty_l, Hc.
    specialize (Hk cap). simpl in Hk. now rewrite Nat.add_1_r in Hk.
  - destruct Hw as (w1 & w2 & -> & H1 & H2). rewrite append_assoc.
    apply IH1; [exact H1|]. intros cap'. apply IH2; [exact H2|].
    intros cap''. specialize (Hk cap'').
    now rewrite length_append, Nat.add_assoc in Hk.
  - destruct Hw as [H1|H2].
    + specialize (IH1 _ H1 A s pos cap k Hk).
      destruct (run r1 (w ++ s) pos cap k); [discriminate | contradiction].
    + destruct (run r1 (w ++ s) pos cap k); [discriminate|].
      now apply IH2.
  - apply star_complete; [exact Hw | apply Hk].
  - apply IH1; [exact Hw|]. intros cap'. apply Hk.
  - contradiction.
  - contradiction.
Qed.

Lemma matchAt_complete (r : regex) (w s : string) (pos : nat) :
  Lang r w -> matchAt r (w ++ s) pos <> None.
Proof.
  intros H. unfold matchAt. apply run_complete; [exact H|]. discriminate.
Qed.

(** An occurrence of a word of the expression anywhere in the text makes
    the search succeed. *)
Lemma search_complete (r : regex) (w : string) :
  Lang r w ->
  forall (pre post : string) (pos : nat),
    search r (pre ++ w ++ post) pos <> None.
Proof.
  intros H pre post. induction pre as [|c pre IH]; intros pos.
  - rewrite append_empty_l.
    pose proof (matchAt_complete r w post pos H) as Hm.
    destruct (w ++ post); cbn [search];
      destruct (matchAt r _ pos); (discriminate || contradiction).
  - rewrite append_cons. cbn [search].
    destruct (matchAt r _ pos); [discriminate | apply IH].
Qed.

Lemma searchAll_nonempty (r : regex) (s : string) :
  forall pos, search r s pos <> None -> searchAll r s pos 0 <> [].
Proof.
  induction s as [|c s IH]; intros pos; cbn [search searchAll];
    destruct (matchAt r _ pos); try discriminate; try contradiction.
  apply IH.
Qed.

Lemma Lang_lit (t : string) : Lang (lit t) t.
Proof.
  induction t as [|c t IH]; [reflexivity|].
  assert (Hc : Lang (Char (only c)) (String c "")).
  { exists c. split; [reflexivity|]. unfold only. apply Ascii.eqb_refl. }
  destruct t as [|d t]; [exact Hc|].
  cbn [lit]. exists (String c ""), (String d t). auto.
Qed.

Lemma Lang_litCI (t : string) : Lang (litCI t) t.
Proof.
  induction t as [|c t IH]; [reflexivity|].
  assert (Hc : Lang (Char (onlyCI c)) (String c "")).
  { exists c. split; [reflexivity|]. unfold onlyCI. apply Ascii.eqb_refl. }
  destruct t as [|d t]; [exact Hc|].
  cbn [litCI]. exists (String c ""), (String d t). auto.
Qed.

Lemma Lang_seq (r1 r2 : regex) (w1 w2 : string) :
  Lang r1 w1 -> Lang r2 w2 -> Lang (Seq r1 r2) (w1 ++ w2).
Proof. intros H1 H2. exists w1, w2. auto. Qed.

Lemma drop_append (t s : string) : drop (String.length t) (t ++ s) = s.
Proof. induction t as [|c t IH]; [now destruct s | exact IH]. Qed.

Lemma run_lit {A : Type} (t : string) :
  forall (s : string) (pos : nat) (cap : option string)
         (k : string -> nat -> option string -> option A),
    run (lit t) s pos cap k
    = if String.prefix t s
      then k (drop (String.length t) s) (pos + String.length t)%nat cap
      else None.
Proof.
  induction t as [|c t IH]; intros s pos cap k.
  - cbn [lit run]. replace (String.prefix "" s) with true by now destruct s.
    simpl. rewrite Nat.add_0_r. now destruct s.
  - assert (Hstep : forall k' : string -> nat -> option string -> option A,
      run (Char (only c)) s pos cap k'
      = match s with
        | String x s' => if ascii_dec c x then k' s' (S pos) cap else None
        | EmptyString => None
        end).
    { intros k'. cbn [run]. destruct s as [|x s']; [reflexivity|].
      unfold only. destruct (ascii_dec c x) as [->|Hne].
      - now rewrite Ascii.eqb_refl.
      - destruct (Ascii.eqb_spec x c); [congruence | reflexivity]. }
    destruct t as [|d t].
    + cbn [lit]. rewrite Hstep. destruct s as [|x s']; [reflexivity|].
      simpl. destruct (ascii_dec c x); [|reflexivity].
      rewrite Nat.add_1_r. now destruct s'.
    + change (run (lit (String c (String d t))) s pos cap k)
        with (run (Char (only c)) s pos cap
                (fun s1 p1 c1 => run (lit (String d t)) s1 p1 c1 k)).
      rewrite Hstep. destruct s as [|x s']; [reflexivity|].
      cbn [String.prefix]. destruct (ascii_dec c x); [|reflexivity].
      rewrite IH. cbn [String.length drop].
      replace (S pos + S (String.length t))%nat
        with (pos + S (S (String.length t)))%nat by lia.
      reflexivity.
Qed.

Lemma star_greedy {A : Type} (cs : charset)
    (k : string -> nat -> option A) :
  (forall s p, k s p <> None) ->
  forall (s : string) (pos : nat),
    star cs s pos k
    = k (dropWhile cs s) (pos + String.length (takeWhile cs s))%nat.
Proof.
  intros Hk. induction s as [|c s IH]; intros pos; cbn [star takeWhile dropWhile].
  - simpl. now rewrite Nat.add_0_r.
  - destruct (cs c).
    + rewrite IH. cbn [String.length]. rewrite Nat.add_succ_r.
      destruct (k _ _) eqn:E; [reflexivity | now apply Hk in E].
    + simpl. now rewrite Nat.add_0_r.
Qed.

Lemma substring_takeWhile (cs : charset) (s : string) :
  String.substring 0 (String.length (takeWhile cs s)) s = takeWhile cs s.
Proof.
  induction s as [|c s IH]; [reflexivity|].
  cbn [takeWhile]. destruct (cs c); [|reflexivity].
  cbn [String.length String.substring]. now rewrite IH.
Qed.

Lemma takeWhile_dropWhile (cs : charset) (s : string) :
  takeWhile cs s ++ dropWhile cs s = s.
Proof.
  induction s as [|c s IH]; [reflexivity|].
  cbn [takeWhile dropWhile]. destruct (cs c); [|reflexivity].
  now rewrite append_cons, IH.
Qed.

Lemma allIn_takeWhile (cs : charset) (s : string) :
  allIn cs (takeWhile cs s) = true.
Proof.
  induction s as [|c s IH]; [reflexivity|].
  cbn [takeWhile]. destruct (cs c) eqn:E; [|reflexivity].
  cbn [allIn]. now rewrite E, IH.
Qed.

Lemma headNotDigit_dropWhile (s : string) : headNotDigit (dropWhile digit s).
Proof.
  induction s as [|c s IH]; [exact I|].
  cbn [dropWhile]. destruct (digit c) eqn:E; [exact IH | exact E].
Qed.

Lemma takeWhile_append (ds rest : string) :
  allIn digit ds = true -> headNotDigit rest ->
  takeWhile digit (ds ++ rest) = ds.
Proof.
  intros Hds Hrest. induction ds as [|c ds IH].
  - rewrite append_empty_l. destruct rest as [|c rest]; [reflexivity|].
    cbn [takeWhile]. cbn in Hrest. now rewrite Hrest.
  - cbn [allIn] in Hds. apply andb_true_iff in Hds as [Hc Hds].
    rewrite append_cons. cbn [takeWhile]. now rewrite Hc, IH.
Qed.

(** *** Soundness *)

Lemma star_sound {A : Type} (cs : charset) (s : string) :
  forall (pos : nat) (k : string -> nat -> option A) (x : A),
    star cs s pos k = Some x ->
    exists w s',
      s = w ++ s' /\ allIn cs w = true
      /\ k s' (pos + String.length w)%nat = Some x.
Proof.
  induction s as [|c s IH]; intros pos k x H; cbn [star] in H.
  - exists "", "". rewrite Nat.add_0_r. auto.
  - destruct (cs c) eqn:Ec.
    + destruct (star cs s (S pos) k) as [y|] eqn:Es.
      * injection H as <-. apply IH in Es as (w & s' & -> & Hw & Hk).
        exists (String c w), s'. cbn [allIn String.length].
        rewrite Ec, Hw, Nat.add_succ_r. auto.
      * exists "", (String c s). rewrite Nat.add_0_r. auto.
    + exists "", (String c s). rewrite Nat.add_0_r. auto.
Qed.

Lemma run_sound (r : regex) :
  anchorFree r = true ->
  forall (A : Type) (s : string) (pos : nat) (cap : option string)
         (k : string -> nat -> option string -> option A) (x : A),
    run r s pos cap k = Some x ->
    exists w s' cap',
      s = w ++ s' /\ Lang r w
      /\ k s' (pos + String.length w)%nat cap' = Some x.
Proof.
  induction r as [|cs|r1 IH1 r2 IH2|r1 IH1 r2 IH2|cs|r1 IH1| |];
    intros Hr A s pos cap k x H; cbn [anchorFree] in Hr; cbn [run] in H;
    cbn [Lang].
  - exists "", s, cap. rewrite Nat.add_0_r. auto.
  - destruct s as [|c s]; [discriminate|].
    destruct (cs c) eqn:Ec; [|discriminate].
    exists (String c ""), s, cap. rewrite Nat.add_1_r.
    split; [reflexivity|]. split; [|exact H]. now exists c.
  - apply andb_true_iff in Hr as [Hr1 Hr2].
    apply (IH1 Hr1) in H as (w1 & s1 & c1 & -> & H1 & H).
    apply (IH2 Hr2) in H as (w2 & s2 & c2 & -> & H2 & H).
    exists (w1 ++ w2), s2, c2. rewrite append_assoc, length_append, Nat.add_assoc.
    split; [reflexivity|]. split; [|exact H]. now exists w1, w2.
  - apply andb_true_iff in Hr as [Hr1 Hr2].
    destruct (run r1 s pos cap k) as [y|] eqn:E1.
    + injection H as <-.
      apply (IH1 Hr1) in E1 as (w & s' & c' & -> & Hw & Hk).
      exists w, s', c'. auto.
    + apply (IH2 Hr2) in H as (w & s' & c' & -> & Hw & Hk).
      exists w, s', c'. auto.
  - apply star_sound in H as (w & s' & -> & Hw & Hk).
    exists w, s', cap. auto.
  - apply (IH1 Hr) in H as (w & s' & c' & -> & Hw & Hk).
    eexists w, s', _. split; [reflexivity|]. split; [exact Hw | exact Hk].
  - discriminate.
  - discriminate.
Qed.

Lemma search_sound (r : regex) (s : string) :
  anchorFree r = true ->
  forall (pos : nat), search r s pos <> None -> occursIn r s.
Proof.
  intros Hr. induction s as [|c s IH]; intros pos H; cbn [search] in H.
  - destruct (matchAt r "" pos) as [m'|] eqn:E; [|contradiction].
    unfold matchAt in E.
    apply (run_sound r Hr) in E as (w & s' & c' & Hs & Hw & _).
    exists "", w, s'. auto.
  - destruct (matchAt r (String c s) pos) as [m'|] eqn:E.
    + unfold matchAt in E.
      apply (run_sound r Hr) in E as (w & s' & c' & Hs & Hw & _).
      exists "", w, s'. auto.
    + apply IH in H as (pre & w & post & -> & Hw).
      exists (String c pre), w, post. auto.
Qed.

(** The search succeeds exactly when a word of the expression occurs. *)
Lemma search_iff (r : regex) (s : string) :
  anchorFree r = true -> (search r s 0 <> None <-> occursIn r s).
Proof.
  intros Hr. split; [apply (search_sound r s Hr)|].
  intros (pre & w & post & -> & Hw). now apply search_complete.
Qed.

Lemma searchAll_empty (r : regex) (s : string) :
  forall pos, search r s pos = None -> searchAll r s pos 0 = [].
Proof.
  induction s as [|c s IH]; intros pos; cbn [search searchAll];
    destruct (matchAt r _ pos); try discriminate; auto.
Qed.

Lemma Lang_litCI_iff (w x : string) :
  Lang (litCI w) x <-> JS.toLowerCase x = JS.toLowerCase w.
Proof.
  revert x. induction w as [|c w IH]; intros x.
  - cbn [litCI Lang JS.toLowerCase]. split; [now intros ->|].
    destruct x; [reflexivity | discriminate].
  - assert (Hc : forall y, Lang (Char (onlyCI c)) y
                   <-> exists d, y = String d ""
                                 /\ JS.lowerChar d = JS.lowerChar c).
    { intros y. cbn [Lang]. unfold onlyCI. split; intros (d & -> & H);
        exists d; (split; [reflexivity|]).
      - now apply Ascii.eqb_eq.
      - now apply Ascii.eqb_eq. }
    destruct w as [|c' w].
    + cbn [litCI]. rewrite Hc. cbn [JS.toLowerCase]. split.
      * intros (d & -> & H). cbn [JS.toLowerCase]. now rewrite H.
      * destruct x as [|d [|d' x]]; cbn [JS.toLowerCase]; try discriminate.
        intros H. injection H as H. now exists d.
    + change (litCI (String c (String c' w)))
        with (Seq (Char (onlyCI c)) (litCI (String c' w))).
      cbn [Lang]. split.
      * intros (w1 & w2 & -> & H1 & H2). apply Hc in H1 as (d & -> & Hd).
        apply IH in H2. rewrite append_cons, append_empty_l.
        cbn [JS.toLowerCase] in *. now rewrite Hd, H2.
      * destruct x as [|d x]; [discriminate|].
        change (JS.toLowerCase (String d x))
          with (String (JS.lowerChar d) (JS.toLowerCase x)).
        change (JS.toLowerCase (String c (String c' w)))
          with (String (JS.lowerChar c) (JS.toLowerCase (String c' w))).
        intros H. injection H as Hd Hx.
        exists (String d ""), x. split; [reflexivity|]. split.
        -- apply Hc. now exists d.
        -- now apply IH.
Qed.

(** ** Code patterns *)

(** A code pattern that occurs in the page yields its finding. *)
Lemma patternFinding_hit (html : string) (cp : CodePattern) :
  search (source (pattern cp)) html 0 <> None ->
  exists lines,
    patternFinding html cp =
    [ {| name := "JavaScript Code Pattern";
         version :=
           "Líneas: "
           ++ JS.join ", " (map JS.natToString (firstn 3 lines))
           ++ (if Nat.ltb 3 (List.length lines) then "..." else "");
         vulnerability := cpVulnerability cp ++ " - " ++ exploitation cp;
         severity := cpSeverity cp;
         lineNumbers := Some lines;
         recommendation := Some (cpRecommendation cp) |} ].
Proof.
  intros H. apply searchAll_nonempty in H.
  unfold patternFinding, matchGlobal.
  destruct (searchAll (source (pattern cp)) html 0 0) as [|m ms];
    [contradiction|].
  cbn [map].
  destruct (scanLines _ _ 0 []) as [lines re']. now exists lines.
Qed.

Lemma In_pattern_findings (html : string) (cp : CodePattern)
    (f : VulnerableTechnology) (technologies : list Technology) :
  In cp vulnerablePatterns -> In f (patternFinding html cp) ->
  In f (detectVulnerableTechnologies technologies html).
Proof.
  intros Hcp Hf. unfold detectVulnerableTechnologies.
  apply in_or_app. right. apply in_or_app. left.
  apply in_flat_map. exists cp. auto.
Qed.

Lemma jquery_call_in_language :
  Lang jqueryHtmlPattern ("$(" ++ q ++ "#x" ++ q ++ ").html(nombre").
Proof.
  change ("$(" ++ q ++ "#x" ++ q ++ ").html(nombre")
    with ("$(" ++ (q ++ "#x" ++ q) ++ ")" ++ ".html" ++ "" ++ "(" ++ ""
          ++ ("" ++ "nombre")).
  unfold jqueryHtmlPattern. cbn [seqs alts].
  repeat apply Lang_seq; try apply Lang_lit; try apply Lang_litCI;
    try reflexivity.
  right. right. left. apply Lang_seq; [reflexivity | apply Lang_litCI].
Qed.

(** The first half of the scenario: every page that contains the jQuery
    call gets the jQuery .html() finding, of severity high. *)
Lemma jquery_html_call_flagged (technologies : list Technology)
    (html : string) :
  JS.includes html jqueryHtmlCall = true ->
  exists f,
    In f (detectVulnerableTechnologies technologies html)
    /\ name f = "JavaScript Code Pattern"
    /\ vulnerability f =
       "jQuery XSS via .html() with decoded/base64 content - Uso de .html() con datos decodificados de base64 puede ejecutar scripts maliciosos"
    /\ severity f = high_.
Proof.
  intros H. apply includes_inv in H as (pre & post & ->).
  set (cp := codePattern jqueryHtmlPattern
        "jQuery XSS via .html() with decoded/base64 content" high_
        "Uso de .html() con datos decodificados de base64 puede ejecutar scripts maliciosos"
        "Validar y sanitizar contenido antes de usar .html(), usar .text() para contenido de texto").
  destruct (patternFinding_hit (pre ++ jqueryHtmlCall ++ post) cp)
    as [lines Hf].
  - change (pre ++ jqueryHtmlCall ++ post)
      with (pre ++ ("$(" ++ q ++ "#x" ++ q ++ ").html(nombre") ++ ")" ++ post).
    apply search_complete, jquery_call_in_language.
  - eexists. split; [|split; [|split]].
    + apply (In_pattern_findings _ cp).
      * unfold vulnerablePatterns. do 4 right. left. reflexivity.
      * rewrite Hf. left. reflexivity.
    + reflexivity.
    + reflexivity.
    + reflexivity.
Qed.

(** C1.  The second half of the scenario, on the code: for the page that
    only assigns a string literal to innerHTML, the matcher reports the
    innerHTML finding (severity medium, line 1), and the false-positive
    filter leaves it in. *)
Theorem static_innerHTML_is_flagged :
  map (fun f => (name f, vulnerability f, severity f, lineNumbers f))
    (detectVulnerableTechnologies [] staticInnerHTML)
  = [ ("JavaScript Code Pattern",
       "Potential XSS via innerHTML assignment - Permite inyección de HTML/JavaScript malicioso en el DOM",
       medium_, Some [1%nat]) ]
  /\ SecurityIntegrationUtils.filterFalsePositives
       (detectVulnerableTechnologies [] staticInnerHTML)
     = detectVulnerableTechnologies [] staticInnerHTML.
Proof. split; vm_compute; reflexivity. Qed.

Lemma In_console_finding (technologies : list Technology) (html : string) :
  JS.includes html "console.log" = true ->
  exists f, In f (detectVulnerableTechnologies technologies html)
            /\ name f = "Console Logging"
            /\ vulnerability f = consoleVulnerability /\ severity f = low_.
Proof.
  intros H.
  exists {| name := "Console Logging"; version := "Present";
            vulnerability := "Console logging in production code";
            severity := low_; lineNumbers := None; recommendation := None |}.
  split; [|repeat split].
  unfold detectVulnerableTechnologies, consoleLoggingFinding. rewrite H.
  cbn [orb]. apply in_or_app. right. apply in_or_app. right.
  apply in_or_app. right. left. reflexivity.
Qed.

Lemma In_debug_finding (technologies : list Technology) (html : string) :
  JS.includes html "debug=true" = true ->
  exists f, In f (detectVulnerableTechnologies technologies html)
            /\ name f = "Debug Configuration"
            /\ vulnerability f = debugVulnerability /\ severity f = medium_.
Proof.
  intros H.
  exists {| name := "Debug Configuration"; version := "Enabled";
            vulnerability := "Debug mode enabled in production";
            severity := medium_; lineNumbers := None; recommendation := None |}.
  split; [|repeat split].
  unfold detectVulnerableTechnologies, debugConfigurationFinding. rewrite H.
  cbn [orb]. apply in_or_app. right. apply in_or_app. right.
  apply in_or_app. left. left. reflexivity.
Qed.

Lemma debug_in_language : Lang debugPattern "debug=true".
Proof.
  change "debug=true" with ("debug" ++ "" ++ "=" ++ "" ++ "true").
  unfold debugPattern. cbn [seqs].
  repeat apply Lang_seq; try apply Lang_lit; try apply Lang_litCI;
    reflexivity.
Qed.

Lemma vulnerablePatterns_anchorFree (cp : CodePattern) :
  In cp vulnerablePatterns -> anchorFree (source (pattern cp)) = true.
Proof.
  unfold vulnerablePatterns. cbn [In].
  intros H. repeat (destruct H as [<-|H]; [reflexivity|]).
  contradiction.
Qed.

(** A code pattern gives a finding exactly when a word of its expression
    occurs in the page. *)
Lemma patternFinding_iff (html : string) (cp : CodePattern) :
  In cp vulnerablePatterns ->
  (patternFinding html cp <> [] <-> occursIn (source (pattern cp)) html).
Proof.
  intros Hcp. pose proof (vulnerablePatterns_anchorFree cp Hcp) as Hr.
  rewrite <- (search_iff _ html Hr). split.
  - intros H Hn. apply H. apply searchAll_empty in Hn.
    unfold patternFinding, matchGlobal. rewrite Hn. reflexivity.
  - intros H. destruct (patternFinding_hit html cp H) as [lines ->].
    discriminate.
Qed.

(** The words of the console pattern. *)
Lemma consolePattern_language (w : string) :
  Lang consolePattern w
  <-> exists method ws,
        w = method ++ ws ++ "("
        /\ In (JS.toLowerCase method) consoleMethods
        /\ allIn space ws = true.
Proof.
  unfold consolePattern. cbn [seqs alts Lang]. split.
  - intros (w1 & w2 & -> & H1 & w3 & w4 & -> & H3 & w5 & w6 & -> & H5
            & c & -> & Hc).
    apply Lang_litCI_iff in H1.
    unfold only in Hc. apply Ascii.eqb_eq in Hc. subst c.
    exists (w1 ++ w3), w5. rewrite toLowerCase_append, H1.
    split; [now rewrite !append_assoc|]. split; [|exact H5].
    destruct H3 as [H3|[H3|H3]]; apply Lang_litCI_iff in H3; rewrite H3;
      cbn; tauto.
  - intros (method & ws & -> & Hm & Hws).
    assert (Hsplit : exists w1 w3,
               method = w1 ++ w3 /\ JS.toLowerCase w1 = "console."
               /\ In (JS.toLowerCase w3) ["log"; "error"; "warn"]).
    { cbn [In consoleMethods] in Hm.
      destruct Hm as [Hm|[Hm|[Hm|[]]]]; symmetry in Hm.
      - apply (toLowerCase_append_inv method "console." "log") in Hm
          as (w1 & w3 & -> & E1 & E3).
        exists w1, w3. rewrite E3. cbn. tauto.
      - apply (toLowerCase_append_inv method "console." "error") in Hm
          as (w1 & w3 & -> & E1 & E3).
        exists w1, w3. rewrite E3. cbn. tauto.
      - apply (toLowerCase_append_inv method "console." "warn") in Hm
          as (w1 & w3 & -> & E1 & E3).
        exists w1, w3. rewrite E3. cbn. tauto. }
    destruct Hsplit as (w1 & w3 & -> & E1 & E3).
    exists w1, (w3 ++ ws ++ "("). split; [now rewrite !append_assoc|].
    split; [now apply Lang_litCI_iff|].
    exists w3, (ws ++ "("). split; [reflexivity|]. split.
    + cbn [In] in E3. destruct E3 as [E|[E|[E|[]]]].
      * left. apply Lang_litCI_iff. now rewrite <- E.
      * right. left. apply Lang_litCI_iff. now rewrite <- E.
      * right. right. apply Lang_litCI_iff. now rewrite <- E.
    + exists ws, "(". split; [reflexivity|]. split; [exact Hws|].
      exists "("%char. split; [reflexivity|]. reflexivity.
Qed.

Lemma occursIn_consolePattern (html : string) :
  occursIn consolePattern html <-> hasConsoleCall html.
Proof.
  unfold occursIn, hasConsoleCall. split.
  - intros (pre & w & post & -> & Hw).
    apply consolePattern_language in Hw as (method & ws & -> & Hm & Hws).
    exists pre, method, ws, post. split; [|auto].
    now rewrite !append_assoc.
  - intros (pre & method & ws & post & -> & Hm & Hws).
    exists pre, (method ++ ws ++ "("), post. split.
    + now rewrite !append_assoc.
    + apply consolePattern_language. now exists method, ws.
Qed.

(** A finding for a technology carries the name of a rule of the
    database. *)
Lemma versionFinding_name (tech : Technology) (f : VulnerableTechnology) :
  In f (versionFinding tech) -> vulnerabilityDatabase !! name f <> None.
Proof.
  unfold versionFinding.
  destruct (vulnerabilityDatabase !! techName tech) as [vuln|] eqn:E;
    [|intros []].
  destruct (JS.truthy (techVersion tech)) as [version|]; [|intros []].
  match goal with |- In f (if ?b then _ else _) -> _ => destruct b end;
    [|intros []].
  intros [<-|[]]. cbn [name]. rewrite E. discriminate.
Qed.

Lemma patternFinding_shape (html : string) (cp : CodePattern)
    (f : VulnerableTechnology) :
  In f (patternFinding html cp) ->
  name f = "JavaScript Code Pattern"
  /\ vulnerability f = cpVulnerability cp ++ " - " ++ exploitation cp
  /\ severity f = cpSeverity cp.
Proof.
  unfold patternFinding.
  destruct (matchGlobal html (pattern cp)) as [[[|m ms]|] re]; try intros [].
  destruct (scanLines re (JS.split newline html) 0 []) as [lines re'].
  intros [<-|[]]. auto.
Qed.

(** No other code pattern has the text of the console pattern. *)
Lemma console_text_unique (cp : CodePattern) :
  In cp vulnerablePatterns ->
  cpVulnerability cp ++ " - " ++ exploitation cp = consolePatternText ->
  cp = consoleCodePattern.
Proof.
  unfold vulnerablePatterns. cbn [In]. intros H.
  repeat (destruct H as [<-|H];
          [intros E; first [reflexivity | vm_compute in E; discriminate E]|]).
  contradiction.
Qed.

(** The code-pattern finding about console logging is reported exactly
    for a page with a console call. *)
Lemma console_pattern_reported (technologies : list Technology)
    (html : string) :
  reported (detectVulnerableTechnologies technologies html)
    "JavaScript Code Pattern" consolePatternText low_
  <-> hasConsoleCall html.
Proof.
  assert (Hcp : In consoleCodePattern vulnerablePatterns)
    by (unfold vulnerablePatterns; do 7 right; left; reflexivity).
  rewrite <- occursIn_consolePattern.
  change consolePattern with (source (pattern consoleCodePattern)).
  rewrite <- (patternFinding_iff html consoleCodePattern Hcp). split.
  - intros (f & Hin & Hn & Hv & _). unfold detectVulnerableTechnologies in Hin.
    apply in_app_or in Hin as [Hin|Hin].
    { apply in_flat_map in Hin as (tech & _ & Hin).
      apply versionFinding_name in Hin. rewrite Hn in Hin.
      exfalso. apply Hin. vm_compute. reflexivity. }
    apply in_app_or in Hin as [Hin|Hin].
    { apply in_flat_map in Hin as (cp' & Hcp' & Hin).
      pose proof (patternFinding_shape _ _ _ Hin) as (_ & Hv' & _).
      rewrite Hv in Hv'. symmetry in Hv'.
      apply (console_text_unique cp' Hcp') in Hv'. subst cp'.
      intros Hnil. rewrite Hnil in Hin. exact Hin. }
    apply in_app_or in Hin as [Hin|Hin].
    + unfold debugConfigurationFinding in Hin.
      destruct (_ || _); [|destruct Hin].
      destruct Hin as [<-|[]]. discriminate Hn.
    + unfold consoleLoggingFinding in Hin.
      destruct (_ || _); [|destruct Hin].
      destruct Hin as [<-|[]]. discriminate Hn.
  - intros H. destruct (patternFinding html consoleCodePattern) as [|f l] eqn:E;
      [now elim H|].
    exists f.
    assert (Hin : In f (patternFinding html consoleCodePattern))
      by (rewrite E; now left).
    split; [now apply (In_pattern_findings _ consoleCodePattern)|].
    apply patternFinding_shape in Hin as (Hn & Hv & Hs). auto.
Qed.

(** *** Tallies *)

Lemma fold_countSeverity (l : list VulnerableTechnology)
    (acc : VulnerabilityData) :
  let r := fold_left countSeverity l acc in
  critical r = critical acc + severityCount critical_ l
  /\ high r = high acc + severityCount high_ l
  /\ medium r = medium acc + severityCount medium_ l
  /\ low r = low acc + severityCount low_ l.
Proof.
  revert acc. induction l as [|v l IH]; intros acc; cbn [fold_left].
  - unfold severityCount. cbn. lia.
  - specialize (IH (countSeverity acc v)). cbv zeta in IH.
    destruct IH as (Hc & Hh & Hm & Hl). cbv zeta.
    rewrite Hc, Hh, Hm, Hl. unfold severityCount, countSeverity.
    cbn [List.filter].
    destruct (severity v); cbn [sameSeverity critical high medium low List.length];
      lia.
Qed.

(** The tallies are the numbers of findings of each severity. *)
Lemma normalizeVulnerabilities_spec (l : list VulnerableTechnology) :
  critical (normalizeVulnerabilities l) = severityCount critical_ l
  /\ high (normalizeVulnerabilities l) = severityCount high_ l
  /\ medium (normalizeVulnerabilities l) = severityCount medium_ l
  /\ low (normalizeVulnerabilities l) = severityCount low_ l.
Proof.
  pose proof (fold_countSeverity l
                {| critical := 0; high := 0; medium := 0; low := 0 |}) as H.
  cbv zeta in H. cbn [critical high medium low] in H.
  unfold normalizeVulnerabilities. rewrite !Z.add_0_l in H. exact H.
Qed.

Lemma severityCount_app (sev : Severity) (a b : list VulnerableTechnology) :
  severityCount sev (a ++ b) = severityCount sev a + severityCount sev b.
Proof.
  unfold severityCount. rewrite List.filter_app, List.length_app. lia.
Qed.

Lemma severityCount_nonneg (sev : Severity) (l : list VulnerableTechnology) :
  0 <= severityCount sev l.
Proof. unfold severityCount. lia. Qed.

Lemma severityCount_In (sev : Severity) (l : list VulnerableTechnology)
    (f : VulnerableTechnology) :
  In f l -> severity f = sev -> 1 <= severityCount sev l.
Proof.
  intros Hin Hs. apply in_split in Hin as (l1 & l2 & ->).
  rewrite severityCount_app.
  pose proof (severityCount_nonneg sev l1).
  change (f :: l2) with ([f] ++ l2)%list. rewrite severityCount_app.
  pose proof (severityCount_nonneg sev l2).
  assert (severityCount sev [f] = 1); [|lia].
  unfold severityCount. cbn [List.filter]. rewrite Hs.
  destruct sev; reflexivity.
Qed.

(** Two findings of one severity, one from the code patterns and one from
    the configuration checks, make two in the tally. *)
Lemma two_in_tally (sev : Severity)
    (a b c d : list VulnerableTechnology) (f1 f2 : VulnerableTechnology) :
  In f1 b -> severity f1 = sev -> In f2 (c ++ d) -> severity f2 = sev ->
  2 <= severityCount sev (a ++ b ++ c ++ d).
Proof.
  intros H1 S1 H2 S2. rewrite !severityCount_app.
  pose proof (severityCount_nonneg sev a).
  pose proof (severityCount_In sev b f1 H1 S1).
  pose proof (severityCount_In sev (c ++ d) f2 H2 S2) as H3.
  rewrite severityCount_app in H3. lia.
Qed.

Lemma filterFalsePositives_app (a b : list VulnerableTechnology) :
  filterFalsePositives (a ++ b)
  = (filterFalsePositives a ++ filterFalsePositives b)%list.
Proof. apply List.filter_app. Qed.

(** What the filter does with a finding depends on its text alone. *)
Lemma filterFalsePositives_In (l : list VulnerableTechnology)
    (f : VulnerableTechnology) :
  In f (filterFalsePositives l)
  <-> In f l
      /\ isGoogleSafe f = false /\ isDevSafe f = false
      /\ isSafeInnerHTML f = false.
Proof.
  unfold filterFalsePositives. rewrite filter_In.
  rewrite !andb_true_iff, !negb_true_iff. tauto.
Qed.

Lemma console_texts_pass (f : VulnerableTechnology) :
  vulnerability f = consolePatternText
  \/ vulnerability f = consoleVulnerability ->
  isGoogleSafe f = false /\ isDevSafe f = false /\ isSafeInnerHTML f = false.
Proof.
  unfold isGoogleSafe, isDevSafe, isSafeInnerHTML.
  intros [-> | ->]; repeat split; vm_compute; reflexivity.
Qed.

Lemma debug_texts_stopped (f : VulnerableTechnology) :
  vulnerability f = debugPatternText \/ vulnerability f = debugVulnerability ->
  isDevSafe f = true.
Proof.
  unfold isDevSafe. intros [-> | ->]; vm_compute; reflexivity.
Qed.

(** C10.  The code-pattern finding about console logging (severity low)
    is reported exactly for a page in which console.log, console.error or
    console.warn, in any letter case, is followed, after optional white
    space, by an opening parenthesis.  A page that contains console.log
    has the finding named Console Logging (severity low); if it also has
    such a call, the issue is reported twice, the tally of low findings is
    at least two, and it still is after the false-positive filter.  A
    page that contains debug=true has a code-pattern finding and one named
    Debug Configuration, both of severity medium, and the tally of medium
    findings is at least two; the false-positive filter removes both. *)
Theorem console_and_debug_counted_twice (technologies : list Technology)
    (html : string) :
  (reported (detectVulnerableTechnologies technologies html)
     "JavaScript Code Pattern" consolePatternText low_
   <-> hasConsoleCall html)
  /\ (JS.includes html "console.log" = true ->
      reported (detectVulnerableTechnologies technologies html)
        "Console Logging" consoleVulnerability low_
      /\ (hasConsoleCall html ->
          countedTwice (detectVulnerableTechnologies technologies html)
            consolePatternText "Console Logging" consoleVulnerability low_
          /\ 2 <= low (normalizeVulnerabilities
                         (detectVulnerableTechnologies technologies html))
          /\ 2 <= low (normalizeVulnerabilities
                         (filterFalsePositives
                            (detectVulnerableTechnologies technologies html)))))
  /\ (JS.includes html "debug=true" = true ->
      countedTwice (detectVulnerableTechnologies technologies html)
        debugPatternText "Debug Configuration" debugVulnerability medium_
      /\ 2 <= medium (normalizeVulnerabilities
                        (detectVulnerableTechnologies technologies html))
      /\ forall f,
           In f (filterFalsePositives
                   (detectVulnerableTechnologies technologies html)) ->
           vulnerability f <> debugPatternText
           /\ vulnerability f <> debugVulnerability).
Proof.
  split; [apply console_pattern_reported|]. split.
  - intros Hlog.
    destruct (In_console_finding technologies html Hlog)
      as (f2 & Hin2 & Hn2 & Hv2 & Hs2).
    split; [now exists f2|].
    intros Hcall.
    apply (console_pattern_reported technologies) in Hcall
      as (f1 & Hin1 & Hn1 & Hv1 & Hs1).
    split; [exists f1, f2; auto 10|].
    unfold detectVulnerableTechnologies in *.
    apply in_app_or in Hin1 as [Hin1|Hin1].
    { apply in_flat_map in Hin1 as (tech & _ & Hin1).
      apply versionFinding_name in Hin1. rewrite Hn1 in Hin1.
      exfalso. apply Hin1. vm_compute. reflexivity. }
    apply in_app_or in Hin1 as [Hin1|Hin1]; cycle 1.
    { exfalso. apply in_app_or in Hin1 as [Hin1|Hin1].
      - unfold debugConfigurationFinding in Hin1.
        destruct (_ || _); [|destruct Hin1].
        destruct Hin1 as [<-|[]]. discriminate Hn1.
      - unfold consoleLoggingFinding in Hin1.
        destruct (_ || _); [|destruct Hin1].
        destruct Hin1 as [<-|[]]. discriminate Hn1. }
    apply in_app_or in Hin2 as [Hin2|Hin2].
    { apply in_flat_map in Hin2 as (tech & _ & Hin2).
      apply versionFinding_name in Hin2. rewrite Hn2 in Hin2.
      exfalso. apply Hin2. vm_compute. reflexivity. }
    apply in_app_or in Hin2 as [Hin2|Hin2].
    { apply in_flat_map in Hin2 as (cp & _ & Hin2).
      apply patternFinding_shape in Hin2 as (Hn & _). congruence. }
    split.
    + destruct (normalizeVulnerabilities_spec
                  (flat_map versionFinding technologies
                   ++ flat_map (patternFinding html) vulnerablePatterns
                   ++ debugConfigurationFinding html
                   ++ consoleLoggingFinding html)) as (_ & _ & _ & ->).
      exact (two_in_tally low_ _ _ _ _ f1 f2 Hin1 Hs1 Hin2 Hs2).
    + rewrite !filterFalsePositives_app.
      destruct (normalizeVulnerabilities_spec
                  (filterFalsePositives (flat_map versionFinding technologies)
                   ++ filterFalsePositives
                        (flat_map (patternFinding html) vulnerablePatterns)
                   ++ filterFalsePositives (debugConfigurationFinding html)
                   ++ filterFalsePositives (consoleLoggingFinding html)))
        as (_ & _ & _ & ->).
      apply (two_in_tally low_ _ _ _ _ f1 f2); [|exact Hs1| |exact Hs2].
      * apply filterFalsePositives_In. split; [exact Hin1|].
        apply console_texts_pass. now left.
      * rewrite <- filterFalsePositives_app.
        apply filterFalsePositives_In. split; [exact Hin2|].
        apply console_texts_pass. now right.
  - intros H.
    assert (Hcp : In debugCodePattern vulnerablePatterns)
      by (unfold vulnerablePatterns; do 8 right; left; reflexivity).
    destruct (patternFinding_hit html debugCodePattern) as [lines Hf].
    { apply includes_inv in H as (pre & post & ->).
      apply search_complete, debug_in_language. }
    match type of Hf with _ = [?f] => set (f1 := f) in * end.
    assert (Hin1 : In f1 (flat_map (patternFinding html) vulnerablePatterns)).
    { apply in_flat_map. exists debugCodePattern. split; [exact Hcp|].
      rewrite Hf. left. reflexivity. }
    assert (Hin2 : In {| name := "Debug Configuration"; version := "Enabled";
                         vulnerability := "Debug mode enabled in production";
                         severity := medium_; lineNumbers := None;
                         recommendation := None |}
                     (debugConfigurationFinding html
                      ++ consoleLoggingFinding html)).
    { apply in_or_app. left. unfold debugConfigurationFinding.
      rewrite H. left. reflexivity. }
    split; [|split].
    + eexists _, _. split; [|split].
      * unfold detectVulnerableTechnologies.
        apply in_or_app. right. apply in_or_app. left. exact Hin1.
      * unfold detectVulnerableTechnologies.
        apply in_or_app. right. apply in_or_app. right. exact Hin2.
      * repeat split; reflexivity.
    + unfold detectVulnerableTechnologies.
      destruct (normalizeVulnerabilities_spec
                  (flat_map versionFinding technologies
                   ++ flat_map (patternFinding html) vulnerablePatterns
                   ++ debugConfigurationFinding html
                   ++ consoleLoggingFinding html)) as (_ & _ & -> & _).
      exact (two_in_tally medium_ _ _ _ _ _ _ Hin1 eq_refl Hin2 eq_refl).
    + intros f Hf'. apply filterFalsePositives_In in Hf' as (_ & _ & Hd & _).
      split; intros Hv.
      * rewrite debug_texts_stopped in Hd by now left. discriminate Hd.
      * rewrite debug_texts_stopped in Hd by now right. discriminate Hd.
Qed.

Lemma console_and_debug_counted_twice_witness :
  countedTwice
    (detectVulnerableTechnologies [] "if (debug=true) console.log ('x');")
    consolePatternText "Console Logging" consoleVulnerability low_
  /\ countedTwice
       (detectVulnerableTechnologies [] "if (debug=true) console.log ('x');")
       debugPatternText "Debug Configuration" debugVulnerability medium_.
Proof.
  destruct (console_and_debug_counted_twice []
              "if (debug=true) console.log ('x');") as (_ & Hc & Hd).
  split.
  - apply Hc; [reflexivity|].
    exists "if (debug=true) ", "console.log", " ", "'x');".
    split; [reflexivity|]. split; [left; reflexivity | reflexivity].
  - apply Hd. reflexivity.
Defined.

(** The page that only names console.log, without a call, has no
    code-pattern finding: it is not counted twice. *)
Lemma console_log_mention_counted_once :
  JS.includes "console.log" "console.log" = true
  /\ ~ countedTwice (detectVulnerableTechnologies [] "console.log")
         consolePatternText "Console Logging" consoleVulnerability low_.
Proof.
  split; [reflexivity|].
  intros (f1 & f2 & H1 & _ & Hn & _).
  vm_compute in H1. destruct H1 as [<-|[]]. discriminate Hn.
Qed.

(** ** The robots.txt gate *)

(** The check fails open: a request that raised, or a response that is
    not ok, allows scraping. *)
Lemma robots_fail_open (fetched : result Response) :
  match fetched with
  | Throw _ | ThrowTypeError => True
  | Return response => ok response = false
  end ->
  validateRobotsTxt fetched = true.
Proof.
  destruct fetched as [response|msg|]; cbn [validateRobotsTxt];
    [intros ->; reflexivity | reflexivity | reflexivity].
Qed.

(** Without a section of its own for the scraper, a wildcard section and
    a Disallow that starts at the root deny. *)
Lemma robots_wildcard_disallow_denies (body : string) :
  JS.includes (JS.toLowerCase body) "user-agent: scrapiibot/2.0" = false ->
  JS.includes (JS.toLowerCase body) "user-agent: *" = true ->
  JS.includes (JS.toLowerCase body) "disallow: /" = true ->
  validateRobotsTxt (robotsResponse body) = false.
Proof.
  intros Hown Hwild Hdis. unfold validateRobotsTxt, robotsResponse.
  cbn [ok text negb].
  change ("user-agent: " ++ JS.toLowerCase "ScrapiiBot/2.0")
    with "user-agent: scrapiibot/2.0".
  now rewrite Hown, Hwild, Hdis.
Qed.

(** The wildcard section with a full-site Disallow denies. *)
Lemma robots_wildcard_full_disallow :
  validateRobotsTxt
    (robotsResponse ("User-agent: *" ++ String newline "Disallow: /"))
  = false.
Proof. vm_compute. reflexivity. Qed.

(** C3.  On the code, a robots.txt whose wildcard section only forbids
    the directory /private/ makes the check answer false: the test for a
    full-site Disallow also fires on every Disallow of a path. *)
Theorem path_specific_disallow_denies :
  validateRobotsTxt (robotsResponse pathSpecificRobots) = false.
Proof. vm_compute. reflexivity. Qed.

(** ** Strict-Transport-Security *)

Lemma matchAt_maxAge (s : string) (pos : nat) :
  option_map mGroup1 (matchAt (source maxAgePattern) s pos)
  = option_map Some (hereDigits s).
Proof.
  change (source maxAgePattern)
    with (Seq (lit "max-age=") (Group (Seq (Char digit) (Star digit)))).
  unfold matchAt, hereDigits. cbn [run]. rewrite run_lit.
  destruct (String.prefix "max-age=" s); [|reflexivity].
  change (String.length "max-age=") with 8%nat.
  destruct (drop 8 s) as [|c t]; [reflexivity|].
  destruct (digit c); [|reflexivity].
  rewrite star_greedy by discriminate.
  cbn [option_map mGroup1]. do 2 f_equal.
  replace (S (pos + 8) + String.length (takeWhile digit t) - (pos + 8))%nat
    with (S (String.length (takeWhile digit t))) by lia.
  cbn [String.substring]. now rewrite substring_takeWhile.
Qed.

Lemma search_maxAge (s : string) :
  forall pos,
    option_map mGroup1 (search (source maxAgePattern) s pos)
    = option_map Some (firstHere s).
Proof.
  induction s as [|c s IH]; intros pos; cbn [search firstHere];
    pose proof (matchAt_maxAge) as H.
  - specialize (H "" pos).
    destruct (matchAt _ "" pos), (hereDigits ""); try discriminate;
      (exact H || reflexivity).
  - specialize (H (String c s) pos).
    destruct (matchAt _ (String c s) pos), (hereDigits (String c s));
      try discriminate; [exact H | apply IH].
Qed.

Lemma hereDigits_sound (s ds : string) :
  hereDigits s = Some ds -> maxAgeDigitsHere s ds.
Proof.
  unfold hereDigits. destruct (String.prefix "max-age=" s) eqn:P;
    [|discriminate].
  apply prefix_inv in P as [r ->].
  change 8%nat with (String.length "max-age="). rewrite drop_append.
  destruct r as [|c t]; [discriminate|].
  destruct (digit c) eqn:D; [|discriminate].
  intros [= <-]. exists (dropWhile digit t). repeat split.
  - change (String c (takeWhile digit t) ++ dropWhile digit t)
      with (String c (takeWhile digit t ++ dropWhile digit t)).
    now rewrite takeWhile_dropWhile.
  - discriminate.
  - cbn [allIn]. now rewrite D, allIn_takeWhile.
  - apply headNotDigit_dropWhile.
Qed.

Lemma hereDigits_complete (s ds : string) :
  maxAgeDigitsHere s ds -> hereDigits s = Some ds.
Proof.
  intros (rest & -> & Hne & Hds & Hrest). unfold hereDigits.
  rewrite prefix_append.
  change 8%nat with (String.length "max-age="). rewrite drop_append.
  destruct ds as [|c ds]; [congruence|].
  cbn [allIn] in Hds. apply andb_true_iff in Hds as [Hc Hds].
  rewrite append_cons, Hc. now rewrite takeWhile_append.
Qed.

Lemma firstHere_sound (h : string) :
  forall ds, firstHere h = Some ds ->
  exists pre s,
    h = pre ++ s /\ hereDigits s = Some ds
    /\ forall pre' s',
         h = pre' ++ s' -> (String.length pre' < String.length pre)%nat ->
         hereDigits s' = None.
Proof.
  induction h as [|c h IH]; intros ds; cbn [firstHere].
  - destruct (hereDigits "") eqn:E; [|discriminate].
    intros [= ->]. exists "", "". repeat split; [exact E|].
    intros pre' s' _ Hlt. simpl in Hlt. lia.
  - destruct (hereDigits (String c h)) eqn:E.
    + intros [= ->]. exists "", (String c h). repeat split; [exact E|].
      intros pre' s' _ Hlt. simpl in Hlt. lia.
    + intros H. destruct (IH _ H) as (pre & s & -> & Hs & Hmin).
      exists (String c pre), s. repeat split; [exact Hs|].
      intros pre' s' Heq Hlt. destruct pre' as [|c' pre'].
      * rewrite append_empty_l in Heq. subst s'. exact E.
      * rewrite !append_cons in Heq. injection Heq as _ Heq.
        apply (Hmin pre' s' Heq). simpl in Hlt. lia.
Qed.

Lemma firstHere_complete (pre : string) :
  forall s ds,
    hereDigits s = Some ds ->
    (forall pre' s',
       pre ++ s = pre' ++ s' ->
       (String.length pre' < String.length pre)%nat ->
       hereDigits s' = None) ->
    firstHere (pre ++ s) = Some ds.
Proof.
  induction pre as [|c pre IH]; intros s ds Hs Hmin.
  - rewrite append_empty_l. destruct s; cbn [firstHere]; now rewrite Hs.
  - rewrite append_cons. cbn [firstHere].
    rewrite (Hmin "" (String c (pre ++ s))); [|reflexivity|simpl; lia].
    apply IH; [exact Hs|]. intros pre' s' Heq Hlt.
    apply (Hmin (String c pre') s'); [|simpl; lia].
    now rewrite !append_cons, Heq.
Qed.

Lemma firstMaxAge_iff (h : string) (n : Z) :
  firstMaxAge h n <-> exists ds, firstHere h = Some ds /\ n = decimalValue ds.
Proof.
  split.
  - intros (pre & s & ds & -> & Hs & -> & Hmin). exists ds. split; [|reflexivity].
    apply firstHere_complete; [now apply hereDigits_complete|].
    intros pre' s' Heq Hlt. destruct (hereDigits s') as [ds'|] eqn:E;
      [|reflexivity].
    exfalso. apply (Hmin pre' s' ds' Heq Hlt). now apply hereDigits_sound.
  - intros (ds & Hf & ->). apply firstHere_sound in Hf as (pre & s & -> & Hs & Hmin).
    exists pre, s, ds. repeat split; [now apply hereDigits_sound|].
    intros pre' s' ds' Heq Hlt Hhere. apply hereDigits_complete in Hhere.
    rewrite (Hmin pre' s' Heq Hlt) in Hhere. discriminate.
Qed.

Lemma parseDigits_fold (ds : string) :
  allIn digit ds = true ->
  forall acc,
    JS.parseDigits acc ds
    = fold_left (fun a c => 10 * a + (Z.of_N (N_of_ascii c) - 48))
        (list_ascii_of_string ds) acc.
Proof.
  induction ds as [|c ds IH]; intros Hds acc; [reflexivity|].
  cbn [allIn] in Hds. apply andb_true_iff in Hds as [Hc Hds].
  cbn [JS.parseDigits list_ascii_of_string fold_left].
  change (JS.isDigit c) with (digit c). rewrite Hc. now apply IH.
Qed.

Lemma firstHere_digits (h ds : string) :
  firstHere h = Some ds ->
  ds <> "" /\ allIn digit ds = true.
Proof.
  intros H. apply firstHere_sound in H as (pre & s & _ & Hs & _).
  apply hereDigits_sound in Hs as (rest & _ & Hne & Hds & _). auto.
Qed.

Lemma digits_value_nonneg (ds : string) :
  allIn digit ds = true ->
  forall acc,
    0 <= acc ->
    0 <= fold_left (fun a c => 10 * a + (Z.of_N (N_of_ascii c) - 48))
           (list_ascii_of_string ds) acc.
Proof.
  induction ds as [|c ds IH]; intros Hds acc Hacc; [exact Hacc|].
  cbn [allIn] in Hds. apply andb_true_iff in Hds as [Hc Hds].
  cbn [list_ascii_of_string fold_left]. apply IH; [exact Hds|].
  unfold digit, JS.isDigit, JS.inRange, JS.code in Hc.
  apply andb_true_iff in Hc as [Hc _]. apply N.leb_le in Hc. lia.
Qed.

(** On the samples, [nearestDouble] is the rounding of the Standard
    Library. *)
Lemma nearestDouble_samples :
  Forall (fun z => JS.nearestDouble z = libraryDouble z) roundingSamples.
Proof.
  unfold roundingSamples.
  repeat (apply List.Forall_cons; [vm_compute; reflexivity|]).
  apply List.Forall_nil.
Qed.

Lemma nearestDouble_examples :
  JS.nearestDouble (2 ^ 53 + 1) = Num (2 ^ 53)
  /\ JS.nearestDouble (2 ^ 53 + 3) = Num (2 ^ 53 + 4)
  /\ JS.nearestDouble 99999999999999999999 = Num 100000000000000000000
  /\ JS.nearestDouble (10 ^ 400) = PosInfinity.
Proof. repeat split; vm_compute; reflexivity. Qed.

(** The double nearest to an integer is at least a year of seconds
    exactly when the integer is: both are doubles. *)
Lemma nearestDouble_year (z : Z) :
  0 <= z ->
  geNumber (JS.nearestDouble z) 31536000 = (31536000 <=? z).
Proof.
  intros Hz. unfold JS.nearestDouble.
  assert (P53 : 2 ^ 53 = 9007199254740992) by reflexivity.
  assert (P52 : 2 ^ 52 = 4503599627370496) by reflexivity.
  destruct (Z.ltb_spec z (2 ^ 53)) as [Hlt|Hge].
  - unfold geNumber. cbn [JS.ofInteger JS.ge].
    destruct (Z.leb_spec 31536000 z) as [H|H].
    + apply Qle_bool_iff. rewrite <- Zle_Qle. exact H.
    + apply not_true_is_false. intros E. apply Qle_bool_iff in E.
      rewrite <- Zle_Qle in E. lia.
  - replace (31536000 <=? z) with true by (symmetry; apply Z.leb_le; lia).
    set (e := Z.log2 z - 52).
    assert (Hlog : 53 <= Z.log2 z).
    { rewrite <- (Z.log2_pow2 53) by lia. apply Z.log2_le_mono. exact Hge. }
    assert (He : 0 <= e) by (unfold e; lia).
    assert (Hp : 0 < 2 ^ e) by (apply Z.pow_pos_nonneg; lia).
    assert (Hq : 2 ^ 52 <= z / 2 ^ e).
    { apply Z.div_le_lower_bound; [exact Hp|].
      rewrite <- Z.pow_add_r by lia.
      replace (e + 52) with (Z.log2 z) by (unfold e; lia).
      apply Z.log2_spec. lia. }
    set (q := z / 2 ^ e) in *.
    set (q' := if (2 ^ (e - 1) <? z mod 2 ^ e)
                  || ((z mod 2 ^ e =? 2 ^ (e - 1)) && Z.odd q)
               then q + 1 else q).
    assert (Hq' : 2 ^ 52 <= q')
      by (unfold q'; destruct (_ || _); lia).
    destruct (2 ^ 1024 <=? q' * 2 ^ e); [reflexivity|].
    unfold geNumber. cbn [JS.ofInteger JS.ge].
    apply Qle_bool_iff. rewrite <- Zle_Qle. nia.
Qed.

Lemma parsedMaxAge_spec (h : string) :
  parsedMaxAge h
  = match firstHere h with
    | Some ds => JS.nearestDouble (decimalValue ds)
    | None => Num 0
    end.
Proof.
  unfold parsedMaxAge, matchFirst.
  pose proof (search_maxAge h 0%nat) as H.
  destruct (search (source maxAgePattern) h 0) as [m|];
    destruct (firstHere h) as [ds|] eqn:F; try discriminate; [|reflexivity].
  injection H as ->.
  destruct (firstHere_digits _ _ F) as [Hne Hds].
  destruct ds as [|c ds]; [congruence|].
  cbn [JS.truthy default JS.parseInt].
  pose proof Hds as Hds'. cbn [allIn] in Hds'.
  apply andb_true_iff in Hds' as [Hc _].
  unfold id. cbn [JS.parseInt].
  change (JS.isDigit c) with (digit c). rewrite Hc.
  now rewrite parseDigits_fold.
Qed.

(** C6.  Strict-Transport-Security is valid exactly when the header has a
    value whose first max-age= followed by digits parses to at least
    31536000; a value without such a max-age is invalid; max-age=31536000
    is valid and max-age=31535999 is not. *)
Theorem hsts_valid_iff_max_age (headers : gmap string string) :
  (hsts (analyzeSecurityHeaders headers) = true <->
   exists h n,
     headers !! "strict-transport-security" = Some h
     /\ firstMaxAge h n /\ 31536000 <= n)
  /\ ((forall h n,
         headers !! "strict-transport-security" = Some h ->
         firstMaxAge h n -> n < 31536000) ->
      hsts (analyzeSecurityHeaders headers) = false)
  /\ hsts (analyzeSecurityHeaders (stsHeader "max-age=31536000")) = true
  /\ hsts (analyzeSecurityHeaders (stsHeader "max-age=31535999")) = false.
Proof.
  assert (I : hsts (analyzeSecurityHeaders headers) = true <->
              exists h n,
                headers !! "strict-transport-security" = Some h
                /\ firstMaxAge h n /\ 31536000 <= n).
  { unfold analyzeSecurityHeaders. cbn [hsts].
    destruct (headers !! "strict-transport-security") as [h|]; cycle 1.
    { split; [discriminate | intros (h & n & H & _); discriminate]. }
    split.
    - intros H. destruct h as [|c h]; [discriminate|].
      cbn [JS.truthy] in H. apply andb_true_iff in H as [_ H].
      rewrite parsedMaxAge_spec in H.
      destruct (firstHere (String c h)) as [ds|] eqn:F; [|discriminate H].
      rewrite nearestDouble_year in H
        by (apply digits_value_nonneg;
            [apply (firstHere_digits _ _ F) | lia]).
      apply Z.leb_le in H.
      exists (String c h), (decimalValue ds). repeat split; [|exact H].
      apply firstMaxAge_iff. now exists ds.
    - intros (h' & n & [= <-] & Hf & Hn).
      pose proof Hf as (pre & s & ds & -> & (rest & -> & _) & _).
      apply firstMaxAge_iff in Hf as (ds' & F & ->).
      assert (Hne : JS.truthy (Some (pre ++ "max-age=" ++ ds ++ rest))
                    = Some (pre ++ "max-age=" ++ ds ++ rest)).
      { destruct pre; reflexivity. }
      rewrite Hne, includes_intro, parsedMaxAge_spec, F.
      rewrite nearestDouble_year
        by (apply digits_value_nonneg;
            [apply (firstHere_digits _ _ F) | lia]).
      cbn [andb]. now apply Z.leb_le. }
  split; [exact I|]. split; [|split; vm_compute; reflexivity].
  intros Hlt. apply not_true_is_false. intros E.
  apply I in E as (h & n & Hh & Hf & Hn).
  specialize (Hlt h n Hh Hf). lia.
Qed.

Lemma hsts_valid_iff_max_age_witness :
  exists h n,
    stsHeader "max-age=63072000; includeSubDomains"
      !! "strict-transport-security" = Some h
    /\ firstMaxAge h n /\ 31536000 <= n.
Proof.
  apply (proj1 (proj1 (hsts_valid_iff_max_age
                         (stsHeader "max-age=63072000; includeSubDomains")))).
  vm_compute. reflexivity.
Defined.

(** ** Determinism of the analysis *)

Lemma sortInsert_In (x y : string) (l : list string) :
  In y (sortInsert x l) <-> y = x \/ In y l.
Proof.
  induction l as [|h t IH]; cbn [sortInsert].
  - simpl. intuition.
  - destruct (String.leb x h); simpl; [intuition|].
    rewrite IH. simpl. intuition.
Qed.

Lemma sortInsert_HdRel (x y : string) (l : list string) :
  nameLe y x -> HdRel nameLe y l -> HdRel nameLe y (sortInsert x l).
Proof.
  intros Hyx Hl. destruct l as [|h t]; cbn [sortInsert].
  - now constructor.
  - destruct (String.leb x h); constructor; [exact Hyx|].
    now inversion Hl.
Qed.

Lemma sortInsert_Sorted (x : string) (l : list string) :
  Sorted nameLe l -> Sorted nameLe (sortInsert x l).
Proof.
  induction l as [|h t IH]; intros Hs; cbn [sortInsert].
  - repeat constructor.
  - destruct (String.leb x h) eqn:E.
    + constructor; [exact Hs | now constructor].
    + inversion Hs as [|? ? Ht Hh]; subst. constructor; [now apply IH|].
      apply sortInsert_HdRel; [|exact Hh].
      destruct (String.leb_total x h) as [H|H]; [congruence | exact H].
Qed.

Lemma sort_Sorted (l : list string) : Sorted nameLe (sort l).
Proof.
  induction l as [|x l IH]; [constructor|].
  cbn [sort fold_right]. now apply sortInsert_Sorted.
Qed.

Lemma sortInsert_Permutation (x : string) (l : list string) :
  Permutation (sortInsert x l) (x :: l).
Proof.
  induction l as [|h t IH]; cbn [sortInsert]; [reflexivity|].
  destruct (String.leb x h); [reflexivity|].
  rewrite IH. apply perm_swap.
Qed.

Lemma sort_Permutation (l : list string) : Permutation (sort l) l.
Proof.
  induction l as [|x l IH]; [reflexivity|].
  cbn [sort fold_right]. rewrite sortInsert_Permutation.
  now constructor.
Qed.

Lemma setAdd_NoDup (l : list string) (x : string) :
  List.NoDup l -> List.NoDup (setAdd l x).
Proof.
  intros H. unfold setAdd. destruct (existsb (String.eqb x) l) eqn:E;
    [exact H|].
  apply NoDup_rev in H. rewrite <- (rev_involutive (l ++ [x])%list).
  apply NoDup_rev. rewrite rev_app_distr. cbn [rev app].
  constructor; [|exact H].
  intros Hin. apply in_rev in Hin.
  assert (existsb (String.eqb x) l = true); [|congruence].
  apply existsb_exists. exists x. split; [exact Hin | apply String.eqb_refl].
Qed.

Lemma detectedNames_NoDup (html : string) (doc : Document) :
  List.NoDup (detectedNames html doc).
Proof.
  unfold detectedNames.
  assert (H : forall sigs acc, List.NoDup acc ->
            List.NoDup
              (fold_left
                 (fun technologies '(found, name) =>
                    if found : bool then setAdd technologies name
                    else technologies) sigs acc)).
  { induction sigs as [|[found n] sigs IH]; intros acc Hacc; [exact Hacc|].
    cbn [fold_left]. apply IH. destruct found; [now apply setAdd_NoDup|exact Hacc]. }
  apply H. constructor.
Qed.

Lemma detectTechnologies_names (html : string) (doc : Document) :
  map techName (detectTechnologies html doc) = sort (detectedNames html doc).
Proof.
  unfold detectTechnologies. rewrite map_map. cbn [techName]. apply map_id.
Qed.

Lemma daysRemaining_range (r : Q) :
  isDraw r -> 30 <= JS.floor (r * 365) + 30 <= 394.
Proof.
  intros [H0 H1]. unfold JS.floor.
  assert (L : 0 <= Qfloor (r * 365)).
  { change 0 with (Qfloor 0). apply Qfloor_resp_le. nra. }
  assert (U : Qfloor (r * 365) < 365).
  { rewrite Zlt_Qlt. apply Qle_lt_trans with (r * 365)%Q;
      [apply Qfloor_le | change (inject_Z 365) with 365%Q; nra]. }
  lia.
Qed.

Lemma signatures_observations (html : string) (doc1 doc2 : Document) :
  sameObservations doc1 doc2 -> signatures html doc1 = signatures html doc2.
Proof.
  intros (Hsel & Hscripts & Hlinks & Hmeta).
  unfold signatures. rewrite Hscripts, Hlinks, Hmeta.
  unfold detectorSelectors in Hsel.
  repeat match type of Hsel with
         | Forall _ (_ :: _) =>
             let E := fresh "E" in
             let H := fresh "H" in
             inversion Hsel as [|? ? E H]; subst; clear Hsel; rename H into Hsel;
             rewrite ?E; clear E
         end.
  reflexivity.
Qed.

Lemma detectTechnologies_observations (html : string) (doc1 doc2 : Document) :
  sameObservations doc1 doc2 ->
  detectTechnologies html doc1 = detectTechnologies html doc2.
Proof.
  intros H. unfold detectTechnologies, detectedNames.
  now rewrite (signatures_observations html doc1 doc2 H).
Qed.

Lemma analyzeSecurityHeaders_headers (response1 response2 : Response) :
  sameHeaders response1 response2 ->
  analyzeSecurityHeaders (responseHeaders response1)
  = analyzeSecurityHeaders (responseHeaders response2).
Proof.
  intros H. unfold sameHeaders, analysedHeaders in H.
  unfold analyzeSecurityHeaders.
  repeat match type of H with
         | Forall _ (_ :: _) =>
             let E := fresh "E" in
             let H' := fresh "H" in
             inversion H as [|? ? E H']; subst; clear H; rename H' into H;
             rewrite ?E; clear E
         end.
  reflexivity.
Qed.

Lemma analyzeSSL_headers (url : string) (response1 response2 : Response)
    (random : Q) :
  sameHeaders response1 response2 ->
  analyzeSSL url response1 random = analyzeSSL url response2 random.
Proof.
  intros H. unfold sameHeaders in H. rewrite List.Forall_forall in H.
  unfold analyzeSSL.
  rewrite (H "server") by (cbn; tauto).
  reflexivity.
Qed.

(** C4.  Two runs of the analysis steps on the same URL and page give the
    same technologies (sorted by name, each once), the same header report
    and the same findings, whatever Math.random returns, as soon as the
    two parsed pages answer the detector alike and the two responses
    carry the same analysed headers: nothing else of the page or of the
    response is looked at.  The SSL analyses then agree on everything but
    the days the certificate has left, which for an https URL are drawn
    with Math.random, between 30 and 394; for any other URL the SSL
    analyses are equal. *)
Theorem analysis_deterministic_except_certificate_days
    (r1 r2 : Q) (url html : string) (doc1 doc2 : Document)
    (response1 response2 : Response) :
  isDraw r1 -> isDraw r2 ->
  sameObservations doc1 doc2 -> sameHeaders response1 response2 ->
  technologies (analyze r1 url html doc1 response1)
  = technologies (analyze r2 url html doc2 response2)
  /\ securityHeaders (analyze r1 url html doc1 response1)
     = securityHeaders (analyze r2 url html doc2 response2)
  /\ vulnerableTechnologies (analyze r1 url html doc1 response1)
     = vulnerableTechnologies (analyze r2 url html doc2 response2)
  /\ sslWithoutDays (sslAnalysis (analyze r1 url html doc1 response1))
     = sslWithoutDays (sslAnalysis (analyze r2 url html doc2 response2))
  /\ (JS.startsWith url "https://" = false ->
      sslAnalysis (analyze r1 url html doc1 response1)
      = sslAnalysis (analyze r2 url html doc2 response2))
  /\ (forall d,
        sslDays (sslAnalysis (analyze r1 url html doc1 response1)) = Some d ->
        30 <= d <= 394)
  /\ Sorted nameLe (map techName (detectTechnologies html doc1))
  /\ List.NoDup (map techName (detectTechnologies html doc1)).
Proof.
  intros D1 D2 Hdoc Hresp. unfold analyze.
  cbn [technologies securityHeaders vulnerableTechnologies sslAnalysis].
  rewrite (detectTechnologies_observations html doc1 doc2 Hdoc).
  rewrite (analyzeSecurityHeaders_headers response1 response2 Hresp).
  rewrite (analyzeSSL_headers url response1 response2 r1 Hresp).
  split; [reflexivity|]. split; [reflexivity|]. split; [reflexivity|].
  split; [|split; [|split; [|split]]].
  - unfold analyzeSSL, sslWithoutDays.
    cbn [hasSSL validCertificate tlsVersion httpsEnabled additionalInfo].
    now destruct (JS.startsWith url "https://").
  - intros H. unfold analyzeSSL. now rewrite H.
  - intros d H. unfold sslDays, analyzeSSL in H. cbn [additionalInfo] in H.
    destruct (JS.startsWith url "https://"); [|discriminate].
    cbn in H. injection H as <-. now apply daysRemaining_range.
  - rewrite detectTechnologies_names. apply sort_Sorted.
  - rewrite detectTechnologies_names.
    apply (Permutation_NoDup (l := detectedNames html doc2));
      [symmetry; apply sort_Permutation | apply detectedNames_NoDup].
Qed.

Lemma analysis_deterministic_except_certificate_days_witness :
  technologies (analyze 0 "https://example.com" "<p>jquery 3.4.1</p>"
                  emptyDocument plainResponse)
  = technologies (analyze 0.5 "https://example.com" "<p>jquery 3.4.1</p>"
                    otherDocument otherResponse)
  /\ vulnerableTechnologies
       (analyze 0 "https://example.com" "<p>jquery 3.4.1</p>"
          emptyDocument plainResponse)
     = vulnerableTechnologies
         (analyze 0.5 "https://example.com" "<p>jquery 3.4.1</p>"
            otherDocument otherResponse)
  /\ sslWithoutDays
       (sslAnalysis (analyze 0 "https://example.com" "<p>jquery 3.4.1</p>"
                       emptyDocument plainResponse))
     = sslWithoutDays
         (sslAnalysis (analyze 0.5 "https://example.com" "<p>jquery 3.4.1</p>"
                         otherDocument otherResponse)).
Proof.
  destruct (analysis_deterministic_except_certificate_days 0 0.5
              "https://example.com" "<p>jquery 3.4.1</p>"
              emptyDocument otherDocument plainResponse otherResponse)
    as (Ht & _ & Hv & Hs & _).
  - split; [discriminate | reflexivity].
  - split; [discriminate | reflexivity].
  - unfold sameObservations, detectorSelectors.
    split; [|repeat split]. repeat constructor.
  - unfold sameHeaders, analysedHeaders. repeat constructor.
  - exact (conj Ht (conj Hv Hs)).
Defined.

(** Two runs of analyzeSSL on one https URL and one response differ when
    Math.random returns different numbers. *)
Lemma analyzeSSL_depends_on_random :
  isDraw 0 /\ isDraw 0.5
  /\ analyzeSSL "https://example.com" plainResponse 0
     <> analyzeSSL "https://example.com" plainResponse 0.5.
Proof.
  split; [split; [discriminate | reflexivity]|]. split; [split; [discriminate | reflexivity]|].
  intros H. apply (f_equal sslDays) in H. vm_compute in H. discriminate.
Qed.
